(** * weectllib.db_actions: interactive database actions of weectl

    A shallow embedding of [bin/weectllib/db_actions.py].  The module is
    glue code: it reads the configuration, prompts the user, calls the
    database manager and prints what happened.  Every collaborator that
    lives outside the module (weecfg, weewx.manager, weectllib.parse_dates,
    weeutil.y_or_n, time, logging) is a field of an environment record that
    acts on an abstract world; the three actions are written in a small
    state-and-exception monad that also records every call and every line
    of output, in order. *)

From Stdlib Require Import ZArith String List Bool Lia DecimalString Ascii.
Import ListNotations.
Open Scope string_scope.

(** ** Python values *)

(** Exceptions.  [weedb.OperationalError] (and its subclasses) is the only
    class the module catches; everything else is [OtherError]. *)
Inductive exn : Type :=
| OperationalError (msg : string)
| OtherError (kind msg : string).

(** [str(e)] *)
Definition exn_str (e : exn) : string :=
  match e with
  | OperationalError msg => msg
  | OtherError _ msg => msg
  end.

(** Outcome of a call that may raise. *)
Inductive result (A : Type) : Type :=
| Ok (a : A)
| Raise (e : exn).
Arguments Ok {A} a.
Arguments Raise {A} e.

(** [datetime.date] *)
Record date : Type := mkdate { year : N; month : N; day : N }.

Definition date_eqb (a b : date) : bool :=
  (year a =? year b)%N && (month a =? month b)%N && (day a =? day b)%N.

(** [str(int)] *)
Definition int_str (n : Z) : string := NilZero.string_of_int (Z.to_int n).

Fixpoint zeros (n : nat) : string :=
  match n with
  | O => ""
  | S k => "0" ++ zeros k
  end.

(** ["%0<width>d"] for a natural number *)
Definition zfill (width : nat) (n : N) : string :=
  let s := NilZero.string_of_uint (N.to_uint n) in
  zeros (width - String.length s) ++ s.

(** [str(d)] for a [datetime.date]: [date.isoformat()] *)
Definition date_str (d : date) : string :=
  zfill 4 (year d) ++ "-" ++ zfill 2 (month d) ++ "-" ++ zfill 2 (day d).

(** Truth value of [None] or a date: a date object is always true. *)
Definition truthy {A : Type} (x : option A) : bool :=
  match x with
  | Some _ => true
  | None => false
  end.

(** The [database_dict] entry of a manager dictionary, and the dictionary
    returned by [get_manager_dict_from_config]; only the keys the module
    reads. *)
Record DatabaseDict : Type := { dd_database_name : string }.
Record ManagerDict : Type := { database_dict : DatabaseDict }.

(** An open manager: the handle of its connection and its
    [database_name] property. *)
Record Manager : Type := { connection : nat; database_name : string }.

Inductive stream : Type := stdout | stderr.

(** ** The trace: calls to collaborators and output, in program order *)

Inductive call (Config : Type) : Type :=
| Call_read_config (config_path : string)
| Call_get_manager_dict_from_config (config_dict : Config) (db_binding : string)
| Call_parse_dates (date_ from_date to_date : option string)
| Call_y_or_n (msg : string)
| Call_time
| Call_open_manager_with_config (config_dict : Config) (db_binding : string)
                                (initialize : bool)
| Call_exit (dbmanager : Manager)
| Call_drop_daily (dbmanager : Manager)
| Call_backfill_day_summary (dbmanager : Manager) (start_d stop_d : option date)
                            (trans_days : Z)
| Call_print (file : stream) (text : string)
| Call_log_info (text : string)
| Call_stdout_flush.

Arguments Call_read_config {Config}.
Arguments Call_get_manager_dict_from_config {Config}.
Arguments Call_parse_dates {Config}.
Arguments Call_y_or_n {Config}.
Arguments Call_time {Config}.
Arguments Call_open_manager_with_config {Config}.
Arguments Call_exit {Config}.
Arguments Call_drop_daily {Config}.
Arguments Call_backfill_day_summary {Config}.
Arguments Call_print {Config}.
Arguments Call_log_info {Config}.
Arguments Call_stdout_flush {Config}.

(** The three mutating operations of the database manager. *)
Definition is_create {Config} (c : call Config) : bool :=
  match c with
  | Call_open_manager_with_config _ _ initialize => initialize
  | _ => false
  end.

Definition is_drop {Config} (c : call Config) : bool :=
  match c with
  | Call_drop_daily _ => true
  | _ => false
  end.

Definition is_backfill {Config} (c : call Config) : bool :=
  match c with
  | Call_backfill_day_summary _ _ _ _ => true
  | _ => false
  end.

Definition is_mutating {Config} (c : call Config) : bool :=
  is_create c || is_drop c || is_backfill c.

Definition is_open {Config} (c : call Config) : bool :=
  match c with
  | Call_open_manager_with_config _ _ _ => true
  | _ => false
  end.

Definition count {A : Type} (p : A -> bool) (l : list A) : nat :=
  List.length (filter p l).

(** What was written with [print], stream by stream, and with [log.info]. *)
Fixpoint printed {Config} (f : stream) (tr : list (call Config)) : list string :=
  match tr with
  | [] => []
  | Call_print stdout text :: rest =>
      match f with stdout => text :: printed f rest | stderr => printed f rest end
  | Call_print stderr text :: rest =>
      match f with stderr => text :: printed f rest | stdout => printed f rest end
  | _ :: rest => printed f rest
  end.

Fixpoint logged {Config} (tr : list (call Config)) : list string :=
  match tr with
  | [] => []
  | Call_log_info text :: rest => text :: logged rest
  | _ :: rest => logged rest
  end.

(** ** The environment *)

(** The collaborators, as functions on a world [W].  [Config] is the
    configuration dictionary and [Float] the type of [time.time()] values;
    [env_float_sub] is float subtraction and [env_format_2f] the format
    specification [:.2f].  [env_BOLD] and [env_ENDC] are the two
    [weeutil.bcolors] constants. *)
Record Env (Config Float W : Type) : Type := {
  env_BOLD : string;
  env_ENDC : string;
  env_float_sub : Float -> Float -> Float;
  env_format_2f : Float -> string;
  env_read_config : string -> W -> result (string * Config) * W;
  env_get_manager_dict_from_config :
    Config -> string -> W -> result ManagerDict * W;
  env_parse_dates :
    option string -> option string -> option string -> W ->
    result (option date * option date) * W;
  env_y_or_n : string -> W -> result string * W;
  env_time : W -> Float * W;
  env_open_manager_with_config :
    Config -> string -> bool -> W -> result Manager * W;
  env_exit : Manager -> W -> W;
  env_drop_daily : Manager -> W -> result unit * W;
  env_backfill_day_summary :
    Manager -> option date -> option date -> Z -> W -> result (Z * Z) * W
}.

Arguments env_BOLD {Config Float W}.
Arguments env_ENDC {Config Float W}.
Arguments env_float_sub {Config Float W}.
Arguments env_format_2f {Config Float W}.
Arguments env_read_config {Config Float W}.
Arguments env_get_manager_dict_from_config {Config Float W}.
Arguments env_parse_dates {Config Float W}.
Arguments env_y_or_n {Config Float W}.
Arguments env_time {Config Float W}.
Arguments env_open_manager_with_config {Config Float W}.
Arguments env_exit {Config Float W}.
Arguments env_drop_daily {Config Float W}.
Arguments env_backfill_day_summary {Config Float W}.

(** ** Messages *)

Definition dry_run_notice : string :=
  "This is a dry run. Nothing will actually be done.".

Definition dry_run_done : string :=
  "This was a dry run. Nothing was actually done.".

Definition config_msg (bold endc config_path : string) : string :=
  "The configuration file " ++ bold ++ config_path ++ endc ++ " will be used.".

Definition exists_msg (name : string) : string :=
  "Database '" ++ name ++ "' already exists. Nothing done.".

Definition created_msg (name : string) : string :=
  "Created database '" ++ name ++ "'.".

Definition proceed_msg (name : string) : string :=
  "Proceeding will delete all your daily summaries from database '" ++ name ++ "'".

Definition drop_prompt : string := "Are you sure you want to proceed (y/n)? ".

Definition dropping_msg (name : string) : string :=
  "Dropping daily summary tables from '" ++ name ++ "' ... ".

Definition drop_error_msg (e : exn) : string := "Error '" ++ exn_str e ++ "'".

Definition drop_failed_msg (name : string) : string :=
  "Drop daily summary tables failed for database '" ++ name ++ "'".

(** [tdiff] is the elapsed time already formatted with [:.2f]. *)
Definition dropped_msg (name tdiff : string) : string :=
  "Daily summary tables dropped from " ++
  "database '" ++ name ++ "' in " ++ tdiff ++ " seconds".

Definition no_summaries_msg (name : string) : string :=
  "No daily summaries found in database '" ++ name ++ "'. Nothing done.".

Definition nothing_done : string := "Nothing done.".

Definition rebuild_prompt (name : string) : string :=
  "Rebuild the daily summaries in the database '" ++ name ++ "'? (y/n) ".

Definition rebuilding_msg (name : string) : string :=
  "Rebuilding daily summaries in database '" ++ name ++ "' ...".

Definition rebuild_complete_msg (name : string) : string :=
  "Rebuild of daily summaries in database '" ++ name ++ "' complete.".

Definition up_to_date_msg (name : string) : string :=
  "Daily summaries up to date in '" ++ name ++ "'.".

(** Lines 107-116 of db_actions.py: the description of the date range. *)
Definition range_msg (from_d to_d : option date) : string :=
  if negb (truthy from_d) && negb (truthy to_d) then
    "All daily summaries will be rebuilt."
  else if truthy from_d && negb (truthy to_d) then
    match from_d with
    | Some f => "Daily summaries starting with " ++ date_str f ++ " will be rebuilt."
    | None => ""
    end
  else if negb (truthy from_d) && truthy to_d then
    match to_d with
    | Some t => "Daily summaries through " ++ date_str t ++ " will be rebuilt."
    | None => ""
    end
  else
    match from_d, to_d with
    | Some f, Some t =>
        if date_eqb f t then
          "Daily summary for " ++ date_str f ++ " will be rebuilt."
        else
          "Daily summaries from " ++ date_str f ++ " through " ++ date_str t ++
          ", inclusive, will be rebuilt."
    | _, _ => ""
    end.

(** Lines 151-155: the count message.  [tdiff] is the elapsed time already
    formatted with [:.2f].  The second literal of the plural message is a
    plain string, not an f-string, in the source: its braces are text. *)
Definition count_msg (nrecs ndays : Z) (tdiff : string) : string :=
  if (ndays =? 1)%Z then
    "Processed " ++ int_str nrecs ++ " records to rebuild 1 daily summary in " ++
    tdiff ++ " seconds."
  else
    "Processed " ++ int_str nrecs ++ " records to rebuild " ++ int_str ndays ++
    " daily summaries in " ++
    "{tdiff:.2f} seconds.".

(** Messages stay folded when an action is evaluated symbolically. *)
Arguments dry_run_notice : simpl never.
Arguments dry_run_done : simpl never.
Arguments config_msg : simpl never.
Arguments exists_msg : simpl never.
Arguments created_msg : simpl never.
Arguments proceed_msg : simpl never.
Arguments drop_prompt : simpl never.
Arguments dropping_msg : simpl never.
Arguments drop_error_msg : simpl never.
Arguments drop_failed_msg : simpl never.
Arguments dropped_msg : simpl never.
Arguments no_summaries_msg : simpl never.
Arguments nothing_done : simpl never.
Arguments rebuild_prompt : simpl never.
Arguments rebuilding_msg : simpl never.
Arguments rebuild_complete_msg : simpl never.
Arguments up_to_date_msg : simpl never.
Arguments range_msg : simpl never.
Arguments count_msg : simpl never.

(** ** The monad: world, trace and exceptions *)

Section Actions.

Variables Config Float W : Type.
Variable env : Env Config Float W.

Definition state : Type := (W * list (call Config))%type.

Definition M (A : Type) : Type := state -> result A * state.

Definition ret {A} (a : A) : M A := fun s => (Ok a, s).

Definition bind {A B} (m : M A) (k : A -> M B) : M B :=
  fun s =>
    match m s with
    | (Ok a, s') => k a s'
    | (Raise e, s') => (Raise e, s')
    end.

Definition emit (c : call Config) : M unit :=
  fun s => (Ok tt, (fst s, (snd s ++ [c])%list)).

(** A call to a collaborator: recorded, then answered by the world. *)
Definition ext {A} (c : call Config) (f : W -> result A * W) : M A :=
  fun s =>
    match f (fst s) with
    | (r, w') => (r, (w', (snd s ++ [c])%list))
    end.

(** [try: body / except weedb.OperationalError as e: handler e] *)
Definition try_except {A} (body : M A) (handler : exn -> M A) : M A :=
  fun s =>
    match body s with
    | (Raise (OperationalError msg), s') => handler (OperationalError msg) s'
    | other => other
    end.

(** [try: body / except weedb.OperationalError as e: handler e / else: orelse] *)
Definition try_except_else {A} (body : M unit) (handler : exn -> M A)
           (orelse : M A) : M A :=
  fun s =>
    match body s with
    | (Ok tt, s') => orelse s'
    | (Raise (OperationalError msg), s') => handler (OperationalError msg) s'
    | (Raise e, s') => (Raise e, s')
    end.

(** [with opening as dbmanager: body dbmanager]; the manager's
    [__exit__] closes it on every way out of the body and lets an
    exception pass. *)
Definition with_manager {A} (opening : M Manager) (body : Manager -> M A) : M A :=
  fun s =>
    match opening s with
    | (Ok dbmanager, s1) =>
        match body dbmanager s1 with
        | (r, s2) =>
            (r, (env_exit env dbmanager (fst s2), (snd s2 ++ [Call_exit dbmanager])%list))
        end
    | (Raise e, s1) => (Raise e, s1)
    end.

Definition when (b : bool) (m : M unit) : M unit :=
  if b then m else ret tt.

Notation "x <- m ;; k" := (bind m (fun x => k))
  (at level 61, m at next level, right associativity).
Notation "m ;;; k" := (bind m (fun _ => k))
  (at level 61, right associativity).

(** *** The collaborators as monadic calls *)

Definition print (text : string) : M unit := emit (Call_print stdout text).
Definition print_stderr (text : string) : M unit := emit (Call_print stderr text).
Definition log_info (text : string) : M unit := emit (Call_log_info text).
Definition stdout_flush : M unit := emit Call_stdout_flush.

Definition read_config (config_path : string) : M (string * Config) :=
  ext (Call_read_config config_path) (env_read_config env config_path).

Definition get_manager_dict_from_config (config_dict : Config)
           (db_binding : string) : M ManagerDict :=
  ext (Call_get_manager_dict_from_config config_dict db_binding)
      (env_get_manager_dict_from_config env config_dict db_binding).

Definition parse_dates (date_ from_date to_date : option string)
  : M (option date * option date) :=
  ext (Call_parse_dates date_ from_date to_date)
      (env_parse_dates env date_ from_date to_date).

Definition y_or_n (msg : string) : M string :=
  ext (Call_y_or_n msg) (env_y_or_n env msg).

Definition time_time : M Float :=
  ext Call_time (fun w => match env_time env w with (t, w') => (Ok t, w') end).

Definition open_manager_with_config (config_dict : Config) (db_binding : string)
           (initialize : bool) : M Manager :=
  ext (Call_open_manager_with_config config_dict db_binding initialize)
      (env_open_manager_with_config env config_dict db_binding initialize).

Definition dbmanager_drop_daily (dbmanager : Manager) : M unit :=
  ext (Call_drop_daily dbmanager) (env_drop_daily env dbmanager).

Definition backfill_day_summary (dbmanager : Manager)
           (start_d stop_d : option date) (trans_days : Z) : M (Z * Z) :=
  ext (Call_backfill_day_summary dbmanager start_d stop_d trans_days)
      (env_backfill_day_summary env dbmanager start_d stop_d trans_days).

Definition format_2f (t : Float) : string := env_format_2f env t.

(** *** create_database (lines 22-42) *)

Definition create_database (config_path db_binding : string) (dry_run : bool)
  : M unit :=
  when dry_run (print dry_run_notice) ;;;
  cfg <- read_config config_path ;;
  let (config_path, config_dict) := cfg in
  print (config_msg (env_BOLD env) (env_ENDC env) config_path) ;;;
  try_except
    (with_manager (open_manager_with_config config_dict db_binding false)
       (fun dbmanager => print (exists_msg (database_name dbmanager))))
    (fun _ =>
       if negb dry_run then
         with_manager (open_manager_with_config config_dict db_binding true)
           (fun dbmanager => print (created_msg (database_name dbmanager)))
       else ret tt).

(** *** drop_daily (lines 45-81) *)

Definition drop_daily (config_path db_binding : string) (dry_run : bool)
  : M unit :=
  when dry_run (print dry_run_notice) ;;;
  cfg <- read_config config_path ;;
  let (config_path, config_dict) := cfg in
  print (config_msg (env_BOLD env) (env_ENDC env) config_path) ;;;
  manager_dict <- get_manager_dict_from_config config_dict db_binding ;;
  let database_name := dd_database_name (database_dict manager_dict) in
  print (proceed_msg database_name) ;;;
  ans <- y_or_n drop_prompt ;;
  (if (ans =? "y")%string then
     t1 <- time_time ;;
     print (dropping_msg database_name) ;;;
     try_except
       (with_manager (open_manager_with_config config_dict db_binding false)
          (fun dbmanager =>
             try_except_else
               (if negb dry_run then dbmanager_drop_daily dbmanager else ret tt)
               (fun e =>
                  print_stderr (drop_error_msg e) ;;;
                  print (drop_failed_msg database_name))
               (t2 <- time_time ;;
                let tdiff := env_float_sub env t2 t1 in
                print (dropped_msg database_name (format_2f tdiff)))))
       (fun _ => print (no_summaries_msg database_name))
   else
     print nothing_done) ;;;
  when dry_run (print dry_run_done).

(** *** rebuild_daily (lines 84-159) *)

Definition rebuild_daily (config_path db_binding : string)
           (date_ from_date to_date : option string) (dry_run : bool) : M unit :=
  when dry_run (print dry_run_notice) ;;;
  cfg <- read_config config_path ;;
  let (config_path, config_dict) := cfg in
  print (config_msg (env_BOLD env) (env_ENDC env) config_path) ;;;
  manager_dict <- get_manager_dict_from_config config_dict db_binding ;;
  let database_name := dd_database_name (database_dict manager_dict) in
  dates <- parse_dates date_ from_date to_date ;;
  let (from_d, to_d) := dates in
  let msg := range_msg from_d to_d in
  log_info msg ;;;
  print msg ;;;
  ans <- y_or_n (rebuild_prompt database_name) ;;
  if (ans =? "n")%string then
    log_info nothing_done ;;;
    print nothing_done
  else
    t1 <- time_time ;;
    log_info (rebuilding_msg database_name) ;;;
    print (rebuilding_msg database_name) ;;;
    if dry_run then
      print dry_run_done
    else
      counts <- with_manager (open_manager_with_config config_dict db_binding true)
                  (fun dbmanager => backfill_day_summary dbmanager from_d to_d 20) ;;
      let (nrecs, ndays) := counts in
      t2 <- time_time ;;
      let tdiff := env_float_sub env t2 t1 in
      log_info (rebuild_complete_msg database_name) ;;;
      if negb (nrecs =? 0)%Z then
        stdout_flush ;;;
        when (nrecs >=? 1000)%Z (print "") ;;;
        let msg := count_msg nrecs ndays (format_2f tdiff) in
        print msg ;;;
        print (rebuild_complete_msg database_name)
      else
        print (up_to_date_msg database_name).

(** Running an action from a world, with an empty trace. *)
Definition run {A} (m : M A) (w : W) : result A * state := m (w, []).

Definition outcome {A} (m : M A) (w : W) : result A := fst (run m w).
Definition trace_of {A} (m : M A) (w : W) : list (call Config) := snd (snd (run m w)).
Definition world_after {A} (m : M A) (w : W) : W := fst (snd (run m w)).

End Actions.

Arguments ret {Config W A}.
Arguments bind {Config W A B}.
Arguments create_database {Config Float W}.
Arguments drop_daily {Config Float W}.
Arguments rebuild_daily {Config Float W}.
Arguments run {Config W A}.
Arguments outcome {Config W A}.
Arguments trace_of {Config W A}.
Arguments world_after {Config W A}.

(** ** A scripted environment

    Every collaborator answers with the value the script holds for it,
    whatever its arguments; only the clock moves.  Times are counted in
    hundredths of a second. *)

Module Mock.

Definition Config : Type := list (string * string).

Record script : Type := {
  on_read_config : result (string * Config);
  on_get_manager_dict : result ManagerDict;
  on_parse_dates : result (option date * option date);
  on_y_or_n : result string;
  on_open : result Manager;
  on_open_initialize : result Manager;
  on_drop_daily : result unit;
  on_backfill : result (Z * Z);
  clock : Z;
  tick : Z
}.

Definition advance (s : script) : script :=
  {| on_read_config := on_read_config s;
     on_get_manager_dict := on_get_manager_dict s;
     on_parse_dates := on_parse_dates s;
     on_y_or_n := on_y_or_n s;
     on_open := on_open s;
     on_open_initialize := on_open_initialize s;
     on_drop_daily := on_drop_daily s;
     on_backfill := on_backfill s;
     clock := clock s + tick s;
     tick := tick s |}.

(** [:.2f] on a time in hundredths of a second *)
Definition format_centis (t : Z) : string :=
  (if t <? 0 then "-" else "")%Z ++
  int_str (Z.abs t / 100) ++ "." ++ zfill 2 (Z.to_N (Z.abs t mod 100)).

Definition env : Env Config Z script :=
  {| env_BOLD := "<b>";
     env_ENDC := "</b>";
     env_float_sub := Z.sub;
     env_format_2f := format_centis;
     env_read_config := fun _ s => (on_read_config s, s);
     env_get_manager_dict_from_config := fun _ _ s => (on_get_manager_dict s, s);
     env_parse_dates := fun _ _ _ s => (on_parse_dates s, s);
     env_y_or_n := fun _ s => (on_y_or_n s, s);
     env_time := fun s => (clock s, advance s);
     env_open_manager_with_config :=
       fun _ _ initialize s =>
         ((if initialize then on_open_initialize s else on_open s), s);
     env_exit := fun _ s => s;
     env_drop_daily := fun _ s => (on_drop_daily s, s);
     env_backfill_day_summary := fun _ _ _ _ s => (on_backfill s, s) |}.

Definition cfg : Config := [("wx_binding", "weewx.sdb")].
Definition mgr : Manager := {| connection := 1; database_name := "weewx.sdb" |}.
Definition mgr_dict : ManagerDict :=
  {| database_dict := {| dd_database_name := "weewx.sdb" |} |}.

(** A healthy station: everything succeeds, the user answers [y], the
    backfill processes 5 records over 2 days. *)
Definition healthy : script :=
  {| on_read_config := Ok ("/etc/weewx/weewx.conf", cfg);
     on_get_manager_dict := Ok mgr_dict;
     on_parse_dates := Ok (None, None);
     on_y_or_n := Ok "y";
     on_open := Ok mgr;
     on_open_initialize := Ok mgr;
     on_drop_daily := Ok tt;
     on_backfill := Ok (5, 2)%Z;
     clock := 100000;
     tick := 123 |}.

Definition with_answer (a : string) (s : script) : script :=
  {| on_read_config := on_read_config s;
     on_get_manager_dict := on_get_manager_dict s;
     on_parse_dates := on_parse_dates s;
     on_y_or_n := Ok a;
     on_open := on_open s;
     on_open_initialize := on_open_initialize s;
     on_drop_daily := on_drop_daily s;
     on_backfill := on_backfill s;
     clock := clock s;
     tick := tick s |}.

Definition with_open (r r_init : result Manager) (s : script) : script :=
  {| on_read_config := on_read_config s;
     on_get_manager_dict := on_get_manager_dict s;
     on_parse_dates := on_parse_dates s;
     on_y_or_n := on_y_or_n s;
     on_open := r;
     on_open_initialize := r_init;
     on_drop_daily := on_drop_daily s;
     on_backfill := on_backfill s;
     clock := clock s;
     tick := tick s |}.

Definition with_drop (r : result unit) (s : script) : script :=
  {| on_read_config := on_read_config s;
     on_get_manager_dict := on_get_manager_dict s;
     on_parse_dates := on_parse_dates s;
     on_y_or_n := on_y_or_n s;
     on_open := on_open s;
     on_open_initialize := on_open_initialize s;
     on_drop_daily := r;
     on_backfill := on_backfill s;
     clock := clock s;
     tick := tick s |}.

Definition with_dates (d : option date * option date) (s : script) : script :=
  {| on_read_config := on_read_config s;
     on_get_manager_dict := on_get_manager_dict s;
     on_parse_dates := Ok d;
     on_y_or_n := on_y_or_n s;
     on_open := on_open s;
     on_open_initialize := on_open_initialize s;
     on_drop_daily := on_drop_daily s;
     on_backfill := on_backfill s;
     clock := clock s;
     tick := tick s |}.

Definition with_backfill (r : result (Z * Z)) (s : script) : script :=
  {| on_read_config := on_read_config s;
     on_get_manager_dict := on_get_manager_dict s;
     on_parse_dates := on_parse_dates s;
     on_y_or_n := on_y_or_n s;
     on_open := on_open s;
     on_open_initialize := on_open_initialize s;
     on_drop_daily := on_drop_daily s;
     on_backfill := r;
     clock := clock s;
     tick := tick s |}.

Definition no_database : exn := OperationalError "no such database".

(** The database has not been created yet; creating it works. *)
Definition missing : script := with_open (Raise no_database) (Ok mgr) healthy.

(** The user declines. *)
Definition declining : script := with_answer "n" healthy.

(** The database opens, but dropping its daily summaries fails. *)
Definition locked : script :=
  with_drop (Raise (OperationalError "database is locked")) healthy.

(** The user asked for everything from 2020-01-01 on. *)
Definition from_2020 : script :=
  with_dates (Some (mkdate 2020 1 1), None) healthy.

(** The database file can neither be opened nor created. *)
Definition unwritable : script :=
  with_open (Raise (OperationalError "unable to open database file"))
            (Raise (OperationalError "unable to open database file")) healthy.

(** The configuration file cannot be read. *)
Definition unreadable : script :=
  {| on_read_config := Raise (OtherError "FileNotFoundError" "weewx.conf");
     on_get_manager_dict := on_get_manager_dict healthy;
     on_parse_dates := on_parse_dates healthy;
     on_y_or_n := on_y_or_n healthy;
     on_open := on_open healthy;
     on_open_initialize := on_open_initialize healthy;
     on_drop_daily := on_drop_daily healthy;
     on_backfill := on_backfill healthy;
     clock := clock healthy;
     tick := tick healthy |}.

(** The configuration does not define the binding. *)
Definition unbound : script :=
  {| on_read_config := on_read_config healthy;
     on_get_manager_dict := Raise (OtherError "UnknownBinding" "wx_binding");
     on_parse_dates := on_parse_dates healthy;
     on_y_or_n := on_y_or_n healthy;
     on_open := on_open healthy;
     on_open_initialize := on_open_initialize healthy;
     on_drop_daily := on_drop_daily healthy;
     on_backfill := on_backfill healthy;
     clock := clock healthy;
     tick := tick healthy |}.

(** The dates on the command line do not parse. *)
Definition bad_dates : script :=
  {| on_read_config := on_read_config healthy;
     on_get_manager_dict := on_get_manager_dict healthy;
     on_parse_dates := Raise (OtherError "ValueError" "Invalid --date option specified.");
     on_y_or_n := on_y_or_n healthy;
     on_open := on_open healthy;
     on_open_initialize := on_open_initialize healthy;
     on_drop_daily := on_drop_daily healthy;
     on_backfill := on_backfill healthy;
     clock := clock healthy;
     tick := tick healthy |}.

(** The database answers every open with an error that is not
    operational. *)
Definition corrupt : script :=
  with_open (Raise (OtherError "ProgrammingError" "file is not a database"))
            (Raise (OtherError "ProgrammingError" "file is not a database")) healthy.

(** Dropping fails with an error that is not operational. *)
Definition drop_crashes : script :=
  with_drop (Raise (OtherError "ProgrammingError" "no such table")) healthy.

(** The backfill runs out of disk space. *)
Definition disk_full : script :=
  with_backfill (Raise (OperationalError "database or disk is full")) healthy.

(** The prompt hands back something that is neither [y] nor [n]. *)
Definition mumbling : script := with_answer "maybe" healthy.

End Mock.

(** ** A station whose database comes into existence

    The world holds the configuration files, whether the database server
    (or the directory of the database file) can be reached, and the names
    of the databases that exist. *)

Module DbModel.

(** A configuration: the database name of each binding it defines. *)
Definition Config : Type := list (string * string).

Fixpoint lookup {A : Type} (key : string) (table : list (string * A)) : option A :=
  match table with
  | [] => None
  | (k, v) :: rest => if (k =? key)%string then Some v else lookup key rest
  end.

Record world : Type := {
  config_files : list (string * Config);
  online : bool;
  databases : list string
}.

Definition db_exists (name : string) (w : world) : bool :=
  existsb (String.eqb name) (databases w).

Definition db_create (name : string) (w : world) : world :=
  {| config_files := config_files w;
     online := online w;
     databases := name :: databases w |}.

(** Modelled from the spec: [weecfg.read_config], which is not part of
    db_actions.py.  It returns the resolved path and the configuration,
    and fails with a configuration error if the file is unreadable. *)
Definition db_read_config (config_path : string) (w : world)
  : result (string * Config) * world :=
  match lookup config_path (config_files w) with
  | Some cfg => (Ok (config_path, cfg), w)
  | None => (Raise (OtherError "ConfigError" config_path), w)
  end.

(** Modelled from the spec: [weewx.manager.get_manager_dict_from_config],
    which is not part of db_actions.py.  It returns a descriptor with the
    database name of the binding; a binding the configuration does not
    define is an error that is not operational. *)
Definition db_manager_dict (cfg : Config) (db_binding : string) (w : world)
  : result ManagerDict * world :=
  match lookup db_binding cfg with
  | Some name => (Ok {| database_dict := {| dd_database_name := name |} |}, w)
  | None => (Raise (OtherError "UnknownBinding" db_binding), w)
  end.

(** Modelled from the spec: [weewx.manager.open_manager_with_config], which
    is not part of db_actions.py.  It fails with an operational error when
    the database does not exist or when the operation cannot complete
    (here: the server cannot be reached); an open with initialization
    creates a database that does not exist. *)
Definition db_open (cfg : Config) (db_binding : string) (initialize : bool)
           (w : world) : result Manager * world :=
  match lookup db_binding cfg with
  | None => (Raise (OtherError "UnknownBinding" db_binding), w)
  | Some name =>
      let dbmanager := {| connection := 0; database_name := name |} in
      if negb (online w) then
        (Raise (OperationalError ("cannot connect to " ++ name)), w)
      else if db_exists name w then (Ok dbmanager, w)
      else if initialize then (Ok dbmanager, db_create name w)
      else (Raise (OperationalError ("no such database: " ++ name)), w)
  end.

(** Modelled from the spec: the manager operations [drop_daily()] and
    [backfill_day_summary()], which fail with an operational error when
    they cannot complete.  The daily summaries themselves are not part of
    this world: a backfill finds nothing to process.  The user of this
    world declines every prompt, gives no dates, and its clock stands
    still. *)
Definition env : Env Config Z world :=
  {| env_BOLD := "";
     env_ENDC := "";
     env_float_sub := Z.sub;
     env_format_2f := Mock.format_centis;
     env_read_config := db_read_config;
     env_get_manager_dict_from_config := db_manager_dict;
     env_parse_dates := fun _ _ _ w => (Ok (None, None), w);
     env_y_or_n := fun _ w => (Ok "n", w);
     env_time := fun w => (0%Z, w);
     env_open_manager_with_config := db_open;
     env_exit := fun _ w => w;
     env_drop_daily :=
       fun dbmanager w =>
         if online w then (Ok tt, w)
         else (Raise (OperationalError
                        ("cannot connect to " ++ database_name dbmanager)), w);
     env_backfill_day_summary :=
       fun dbmanager _ _ _ w =>
         if online w then (Ok (0, 0)%Z, w)
         else (Raise (OperationalError
                        ("cannot connect to " ++ database_name dbmanager)), w) |}.

(** The worlds in which nothing stands in the way of the collaborators:
    the configuration file is there, it defines the binding, and the
    server can be reached. *)
Definition sound (config_path db_binding : string) (cfg : Config) (name : string)
           (w : world) : Prop :=
  lookup config_path (config_files w) = Some cfg /\
  lookup db_binding cfg = Some name /\
  online w = true.

Definition station_cfg : Config := [("wx_binding", "weewx.sdb")].

(** A fresh installation: the configuration names [weewx.sdb], which has
    not been created yet. *)
Definition fresh : world :=
  {| config_files := [("weewx.conf", station_cfg)];
     online := true;
     databases := [] |}.

(** The same installation while the server is down. *)
Definition offline : world :=
  {| config_files := [("weewx.conf", station_cfg)];
     online := false;
     databases := [] |}.

End DbModel.

(** ** Statements shared by the theorems *)

(** The second run starts in the world the first run left. *)
Definition twice {Config W A} (first second : M Config W A) (w : W)
  : (result A * list (call Config)) * (result A * list (call Config)) :=
  ((outcome first w, trace_of first w),
   (outcome second (world_after first w), trace_of second (world_after first w))).

(** What is expected of two runs in a row: neither raises, the first finds or creates
    the database, the second makes no creation call and reports that the
    database exists. *)
Definition idempotent_report {Config}
           (name : string)
           (runs : (result unit * list (call Config)) *
                   (result unit * list (call Config))) : Prop :=
  fst (fst runs) = Ok tt /\
  fst (snd runs) = Ok tt /\
  (In (exists_msg name) (printed stdout (snd (fst runs))) \/
   In (created_msg name) (printed stdout (snd (fst runs)))) /\
  count is_create (snd (snd runs)) = 0 /\
  In (exists_msg name) (printed stdout (snd (snd runs))).

(** Modelled from the spec: the contract of [weecfg.read_config] and
    [weewx.manager.open_manager_with_config], which are not part of
    db_actions.py, for the configuration [config_path] and the binding
    [db_binding], in the worlds [sound] where they can complete their
    work.  [present w] says that the database of the binding, [dbname],
    exists in [w].  The configuration is read; an open of a database that
    exists succeeds; an open without initialization of a database that
    does not exist fails with an operational error and leaves it absent;
    an open with initialization creates it; closing a manager changes
    nothing. *)
Record collaborators_complete {Config Float W : Type} (env : Env Config Float W)
       (config_path db_binding p : string) (cfg : Config) (dbname : string)
       (present : W -> bool) (sound : W -> Prop) : Prop := {
  contract_read :
    forall w, sound w ->
      exists w', env_read_config env config_path w = (Ok (p, cfg), w') /\
                 sound w' /\ present w' = present w;
  contract_open_existing :
    forall w initialize, sound w -> present w = true ->
      exists dbmanager w',
        env_open_manager_with_config env cfg db_binding initialize w =
          (Ok dbmanager, w') /\
        database_name dbmanager = dbname /\ sound w' /\ present w' = true;
  contract_open_missing :
    forall w, sound w -> present w = false ->
      exists msg w',
        env_open_manager_with_config env cfg db_binding false w =
          (Raise (OperationalError msg), w') /\
        sound w' /\ present w' = false;
  contract_open_creates :
    forall w, sound w -> present w = false ->
      exists dbmanager w',
        env_open_manager_with_config env cfg db_binding true w =
          (Ok dbmanager, w') /\
        database_name dbmanager = dbname /\ sound w' /\ present w' = true;
  contract_exit :
    forall dbmanager w, sound w ->
      sound (env_exit env dbmanager w) /\
      present (env_exit env dbmanager w) = present w
}.

(** The five descriptions of a date range, as the specification lists
    them. *)
Inductive range_described : option date -> option date -> string -> Prop :=
| range_all :
    range_described None None "All daily summaries will be rebuilt."
| range_starting (f : date) :
    range_described (Some f) None
      ("Daily summaries starting with " ++ date_str f ++ " will be rebuilt.")
| range_through (t : date) :
    range_described None (Some t)
      ("Daily summaries through " ++ date_str t ++ " will be rebuilt.")
| range_single (d : date) :
    range_described (Some d) (Some d)
      ("Daily summary for " ++ date_str d ++ " will be rebuilt.")
| range_between (f t : date) :
    f <> t ->
    range_described (Some f) (Some t)
      ("Daily summaries from " ++ date_str f ++ " through " ++ date_str t ++
       ", inclusive, will be rebuilt.").

(** ** Further views of a trace *)

Definition is_prompt {Config} (c : call Config) : bool :=
  match c with
  | Call_y_or_n _ => true
  | _ => false
  end.

Definition is_exit {Config} (c : call Config) : bool :=
  match c with
  | Call_exit _ => true
  | _ => false
  end.

Definition is_time {Config} (c : call Config) : bool :=
  match c with
  | Call_time => true
  | _ => false
  end.

(** The part of a trace that comes before the first prompt; the whole
    trace when the user is never asked. *)
Fixpoint before_prompt {Config} (tr : list (call Config)) : list (call Config) :=
  match tr with
  | [] => []
  | c :: rest => if is_prompt c then [] else c :: before_prompt rest
  end.

(** The dry-run notice, when there is one. *)
Definition notice_if (dry_run : bool) : list string :=
  if dry_run then [dry_run_notice] else [].

(** ** Proof support *)

Ltac unfold_action :=
  unfold trace_of, outcome, world_after, run,
    create_database, drop_daily, rebuild_daily,
    read_config, get_manager_dict_from_config, parse_dates, y_or_n, time_time,
    open_manager_with_config, dbmanager_drop_daily, backfill_day_summary,
    with_manager, try_except, try_except_else, when,
    print, print_stderr, log_info, stdout_flush, format_2f,
    ext, emit, bind, ret.

(** Split on the next answer of the environment, or on the next test. *)
Ltac case_step :=
  match goal with
  | |- context [match ?x with _ => _ end] =>
      lazymatch x with
      | context [match _ with _ => _ end] => fail
      | _ => destruct x eqn:?
      end
  end.

Ltac case_all := repeat (cbn; try case_step).

(** Replay the answers the hypotheses give. *)
Ltac answer :=
  repeat (cbn; match goal with
               | H : ?l = _ |- context [?l] => rewrite H
               end);
  cbn.

(** ** Concrete runs *)

Example date_str_2020 : date_str (mkdate 2020 1 1) = "2020-01-01".
Proof. reflexivity. Qed.

Example range_msg_single_day :
  range_msg (Some (mkdate 2020 1 1)) (Some (mkdate 2020 1 1)) =
    "Daily summary for 2020-01-01 will be rebuilt.".
Proof. reflexivity. Qed.

Example range_msg_january :
  range_msg (Some (mkdate 2020 1 1)) (Some (mkdate 2020 1 31)) =
    "Daily summaries from 2020-01-01 through 2020-01-31, inclusive, will be rebuilt.".
Proof. reflexivity. Qed.

Example range_msg_through :
  range_msg None (Some (mkdate 2020 1 1)) =
    "Daily summaries through 2020-01-01 will be rebuilt.".
Proof. reflexivity. Qed.

(** One day, 1500 records: a blank line, then the singular message with
    the elapsed time. *)
Example rebuild_daily_one_day_1500_records :
  printed stdout
    (trace_of (rebuild_daily Mock.env "weewx.conf" "wx_binding" None None None false)
              (Mock.with_backfill (Ok (1500, 1)%Z) Mock.healthy)) =
    ["The configuration file <b>/etc/weewx/weewx.conf</b> will be used.";
     "All daily summaries will be rebuilt.";
     "Rebuilding daily summaries in database 'weewx.sdb' ...";
     "";
     "Processed 1500 records to rebuild 1 daily summary in 1.23 seconds.";
     "Rebuild of daily summaries in database 'weewx.sdb' complete."].
Proof. reflexivity. Qed.

(** Nothing to process: only the "up to date" line. *)
Example rebuild_daily_no_records :
  printed stdout
    (trace_of (rebuild_daily Mock.env "weewx.conf" "wx_binding" None None None false)
              (Mock.with_backfill (Ok (0, 0)%Z) Mock.healthy)) =
    ["The configuration file <b>/etc/weewx/weewx.conf</b> will be used.";
     "All daily summaries will be rebuilt.";
     "Rebuilding daily summaries in database 'weewx.sdb' ...";
     "Daily summaries up to date in 'weewx.sdb'."].
Proof. reflexivity. Qed.

(** A real drop on a healthy station. *)
Example drop_daily_healthy :
  trace_of (drop_daily Mock.env "weewx.conf" "wx_binding" false) Mock.healthy =
    [Call_read_config "weewx.conf";
     Call_print stdout
       "The configuration file <b>/etc/weewx/weewx.conf</b> will be used.";
     Call_get_manager_dict_from_config Mock.cfg "wx_binding";
     Call_print stdout
       "Proceeding will delete all your daily summaries from database 'weewx.sdb'";
     Call_y_or_n "Are you sure you want to proceed (y/n)? ";
     Call_time;
     Call_print stdout "Dropping daily summary tables from 'weewx.sdb' ... ";
     Call_open_manager_with_config Mock.cfg "wx_binding" false;
     Call_drop_daily Mock.mgr;
     Call_time;
     Call_print stdout
       "Daily summary tables dropped from database 'weewx.sdb' in 1.23 seconds";
     Call_exit Mock.mgr].
Proof. reflexivity. Qed.

Section DryRun.

Context {Config Float W : Type} (env : Env Config Float W).

Lemma create_database_dry_run_frame (w : W) (config_path db_binding : string) :
  count is_mutating
    (trace_of (create_database env config_path db_binding true) w) = 0.
Proof.
  unfold_action. unfold count. case_all; reflexivity.
Qed.

Lemma drop_daily_dry_run_frame (w : W) (config_path db_binding : string) :
  count is_mutating
    (trace_of (drop_daily env config_path db_binding true) w) = 0.
Proof.
  unfold_action. unfold count. case_all; reflexivity.
Qed.

Lemma rebuild_daily_dry_run_frame (w : W) (config_path db_binding : string)
      (date_ from_date to_date : option string) :
  count is_mutating
    (trace_of (rebuild_daily env config_path db_binding date_ from_date to_date true)
              w) = 0.
Proof.
  unfold_action. unfold count. case_all; reflexivity.
Qed.

End DryRun.

(** ** Equality of dates *)

Lemma date_eqb_eq (a b : date) : date_eqb a b = true <-> a = b.
Proof.
  destruct a as [ya ma da], b as [yb mb db]. unfold date_eqb. cbn.
  rewrite !andb_true_iff, !N.eqb_eq. split.
  - intros [[-> ->] ->]. reflexivity.
  - intros H. injection H as -> -> ->. auto.
Qed.

Lemma date_eqb_neq (a b : date) : date_eqb a b = false <-> a <> b.
Proof.
  rewrite <- date_eqb_eq. destruct (date_eqb a b); split; congruence.
Qed.

(** ** The dry run *)

Section DryRunProperties.

Context {Config Float W : Type} (env : Env Config Float W).

(** C2.  With [dry_run] true none of the three actions calls a mutating
    operation of the database manager, whatever the collaborators
    answer: no open with [initialize=True], no [drop_daily()], no
    [backfill_day_summary()]. *)
Theorem dry_run_calls_nothing_mutating
        (w : W) (config_path db_binding : string)
        (date_ from_date to_date : option string) :
  count is_mutating
    (trace_of (create_database env config_path db_binding true) w) = 0 /\
  count is_mutating
    (trace_of (drop_daily env config_path db_binding true) w) = 0 /\
  count is_mutating
    (trace_of (rebuild_daily env config_path db_binding date_ from_date to_date true)
              w) = 0.
Proof.
  split; [| split].
  - apply create_database_dry_run_frame.
  - apply drop_daily_dry_run_frame.
  - apply rebuild_daily_dry_run_frame.
Qed.

(** C10.  A dry run of [create_database] on a database that does not
    exist swallows the operational error of the open and returns
    normally; it prints the dry-run notice and the configuration line
    and nothing else, and logs nothing. *)
Theorem create_database_dry_run_missing_is_silent
        (w w1 w2 : W) (config_path db_binding p msg : string) (cfg : Config) :
  env_read_config env config_path w = (Ok (p, cfg), w1) ->
  env_open_manager_with_config env cfg db_binding false w1 =
    (Raise (OperationalError msg), w2) ->
  outcome (create_database env config_path db_binding true) w = Ok tt /\
  trace_of (create_database env config_path db_binding true) w =
    [Call_print stdout dry_run_notice;
     Call_read_config config_path;
     Call_print stdout (config_msg (env_BOLD env) (env_ENDC env) p);
     Call_open_manager_with_config cfg db_binding false] /\
  printed stderr (trace_of (create_database env config_path db_binding true) w)
    = [].
Proof.
  intros Hcfg Hopen. unfold_action. answer. repeat split.
Qed.

End DryRunProperties.

Lemma create_database_dry_run_missing_is_silent_witness :
  env_read_config Mock.env "weewx.conf" Mock.missing =
    (Ok ("/etc/weewx/weewx.conf", Mock.cfg), Mock.missing) /\
  env_open_manager_with_config Mock.env Mock.cfg "wx_binding" false Mock.missing =
    (Raise (OperationalError "no such database"), Mock.missing) /\
  outcome (create_database Mock.env "weewx.conf" "wx_binding" true) Mock.missing
    = Ok tt.
Proof.
  split; [reflexivity | split; [reflexivity |]].
  apply (create_database_dry_run_missing_is_silent Mock.env
           Mock.missing Mock.missing Mock.missing
           "weewx.conf" "wx_binding" "/etc/weewx/weewx.conf"
           "no such database" Mock.cfg); reflexivity.
Defined.

(** ** create_database *)

Section CreateDatabase.

Context {Config Float W : Type} (env : Env Config Float W).

(** C5, as amended.  When the first open succeeds, no open with
    [initialize=True] is made and the "already exists" message is
    printed.  When the first open fails with an operational error and
    [dry_run] is false, exactly one open with [initialize=True] is made,
    and the "Created database" message is printed when that open
    succeeds. *)
Theorem create_database_finds_or_creates
        (w w1 : W) (config_path db_binding p : string) (cfg : Config)
        (dry_run : bool) :
  env_read_config env config_path w = (Ok (p, cfg), w1) ->
  (forall dbmanager w2,
      env_open_manager_with_config env cfg db_binding false w1 =
        (Ok dbmanager, w2) ->
      count is_create
        (trace_of (create_database env config_path db_binding dry_run) w) = 0 /\
      In (exists_msg (database_name dbmanager))
         (printed stdout
            (trace_of (create_database env config_path db_binding dry_run) w))) /\
  (forall msg w2,
      env_open_manager_with_config env cfg db_binding false w1 =
        (Raise (OperationalError msg), w2) ->
      dry_run = false ->
      count is_create
        (trace_of (create_database env config_path db_binding dry_run) w) = 1 /\
      forall dbmanager w3,
        env_open_manager_with_config env cfg db_binding true w2 =
          (Ok dbmanager, w3) ->
        In (created_msg (database_name dbmanager))
           (printed stdout
              (trace_of (create_database env config_path db_binding dry_run) w))).
Proof.
  intros Hcfg. split.
  - intros dbmanager w2 Hopen. unfold_action. unfold count.
    destruct dry_run; answer; split; auto.
  - intros msg w2 Hopen ->. unfold_action. unfold count. answer. split.
    + case_all; reflexivity.
    + intros dbmanager w3 Hinit. answer. auto.
Qed.

End CreateDatabase.

Lemma create_database_finds_or_creates_witness :
  (env_read_config Mock.env "weewx.conf" Mock.healthy =
     (Ok ("/etc/weewx/weewx.conf", Mock.cfg), Mock.healthy) /\
   env_open_manager_with_config Mock.env Mock.cfg "wx_binding" false Mock.healthy =
     (Ok Mock.mgr, Mock.healthy) /\
   count is_create
     (trace_of (create_database Mock.env "weewx.conf" "wx_binding" false)
               Mock.healthy) = 0) /\
  (env_read_config Mock.env "weewx.conf" Mock.missing =
     (Ok ("/etc/weewx/weewx.conf", Mock.cfg), Mock.missing) /\
   env_open_manager_with_config Mock.env Mock.cfg "wx_binding" false Mock.missing =
     (Raise (OperationalError "no such database"), Mock.missing) /\
   env_open_manager_with_config Mock.env Mock.cfg "wx_binding" true Mock.missing =
     (Ok Mock.mgr, Mock.missing) /\
   In (created_msg "weewx.sdb")
      (printed stdout
         (trace_of (create_database Mock.env "weewx.conf" "wx_binding" false)
                   Mock.missing))).
Proof.
  split.
  - split; [reflexivity | split; [reflexivity |]].
    apply (proj1 (create_database_finds_or_creates Mock.env
                    Mock.healthy Mock.healthy "weewx.conf" "wx_binding"
                    "/etc/weewx/weewx.conf" Mock.cfg false eq_refl)
                 Mock.mgr Mock.healthy eq_refl).
  - split; [reflexivity | split; [reflexivity | split; [reflexivity |]]].
    apply (proj2 (proj2 (create_database_finds_or_creates Mock.env
                    Mock.missing Mock.missing "weewx.conf" "wx_binding"
                    "/etc/weewx/weewx.conf" Mock.cfg false eq_refl)
                 "no such database" Mock.missing eq_refl eq_refl)
                 Mock.mgr Mock.missing eq_refl).
Defined.

(** C5 as stated fails: when the database can neither be opened nor
    created, the first open fails with an operational error, [dry_run] is
    false, one open with [initialize=True] is made, and yet no "Created
    database" message is printed: the error of the second open leaves the
    function. *)
Lemma create_database_created_message_needs_success :
  env_open_manager_with_config Mock.env Mock.cfg "wx_binding" false Mock.unwritable =
    (Raise (OperationalError "unable to open database file"), Mock.unwritable) /\
  count is_create
    (trace_of (create_database Mock.env "weewx.conf" "wx_binding" false)
              Mock.unwritable) = 1 /\
  printed stdout
    (trace_of (create_database Mock.env "weewx.conf" "wx_binding" false)
              Mock.unwritable) =
    [config_msg "<b>" "</b>" "/etc/weewx/weewx.conf"] /\
  ~ (exists name,
        In (created_msg name)
           (printed stdout
              (trace_of (create_database Mock.env "weewx.conf" "wx_binding" false)
                        Mock.unwritable))) /\
  outcome (create_database Mock.env "weewx.conf" "wx_binding" false)
          Mock.unwritable =
    Raise (OperationalError "unable to open database file").
Proof.
  repeat split.
  intros [name [H | []]]. discriminate H.
Qed.

(** ** Running create_database twice *)

Section Idempotence.

Context {Config Float W : Type} (env : Env Config Float W).

Variables (config_path db_binding p : string) (cfg : Config) (dbname : string).
Variables (present : W -> bool) (sound : W -> Prop).

Hypothesis contract :
  collaborators_complete env config_path db_binding p cfg dbname present sound.

(** A run that finds the database: no creation call, the "already exists"
    message, and the database is still there. *)
Lemma create_database_run_found (w : W) (dry_run : bool) :
  sound w ->
  present w = true ->
  exists w' tr,
    run (create_database env config_path db_binding dry_run) w = (Ok tt, (w', tr)) /\
    sound w' /\
    present w' = true /\
    count is_create tr = 0 /\
    In (exists_msg dbname) (printed stdout tr).
Proof.
  intros Hs Hp.
  destruct (contract_read _ _ _ _ _ _ _ _ contract w Hs) as (w1 & Hread & Hs1 & Hp1).
  rewrite Hp in Hp1.
  destruct (contract_open_existing _ _ _ _ _ _ _ _ contract w1 false Hs1 Hp1)
    as (dbmanager & w2 & Hopen & Hname & Hs2 & Hp2).
  destruct (contract_exit _ _ _ _ _ _ _ _ contract dbmanager w2 Hs2) as [Hs3 Hp3].
  rewrite Hp2 in Hp3.
  unfold_action. unfold count.
  destruct dry_run; answer; do 2 eexists; (split; [reflexivity |]);
    try rewrite Hname; cbn; auto 10.
Qed.

(** A run that is not dry and does not find the database creates it. *)
Lemma create_database_run_created (w : W) :
  sound w ->
  present w = false ->
  exists w' tr,
    run (create_database env config_path db_binding false) w = (Ok tt, (w', tr)) /\
    sound w' /\
    present w' = true /\
    count is_create tr = 1 /\
    In (created_msg dbname) (printed stdout tr).
Proof.
  intros Hs Hp.
  destruct (contract_read _ _ _ _ _ _ _ _ contract w Hs) as (w1 & Hread & Hs1 & Hp1).
  rewrite Hp in Hp1.
  destruct (contract_open_missing _ _ _ _ _ _ _ _ contract w1 Hs1 Hp1)
    as (msg & w2 & Hopen & Hs2 & Hp2).
  destruct (contract_open_creates _ _ _ _ _ _ _ _ contract w2 Hs2 Hp2)
    as (dbmanager & w3 & Hinit & Hname & Hs3 & Hp3).
  destruct (contract_exit _ _ _ _ _ _ _ _ contract dbmanager w3 Hs3) as [Hs4 Hp4].
  rewrite Hp3 in Hp4.
  unfold_action. unfold count. answer. do 2 eexists. split; [reflexivity |].
  try rewrite Hname. cbn. auto 10.
Qed.

(** A dry run that does not find the database returns without creating
    it and prints nothing about it. *)
Lemma create_database_run_dry_missing (w : W) :
  sound w ->
  present w = false ->
  exists w' tr,
    run (create_database env config_path db_binding true) w = (Ok tt, (w', tr)) /\
    sound w' /\
    present w' = false /\
    count is_open tr = 1 /\
    count is_create tr = 0 /\
    printed stdout tr =
      [dry_run_notice; config_msg (env_BOLD env) (env_ENDC env) p].
Proof.
  intros Hs Hp.
  destruct (contract_read _ _ _ _ _ _ _ _ contract w Hs) as (w1 & Hread & Hs1 & Hp1).
  rewrite Hp in Hp1.
  destruct (contract_open_missing _ _ _ _ _ _ _ _ contract w1 Hs1 Hp1)
    as (msg & w2 & Hopen & Hs2 & Hp2).
  unfold_action. unfold count. answer. do 2 eexists. split; [reflexivity |].
  cbn. auto 10.
Qed.

(** C8, as amended.  Let the collaborators complete their work: the
    configuration is read, an open fails only because the database does
    not exist, an open with initialization then creates it, and a
    database that exists stays there.  Then running [create_database]
    twice on the same configuration, the first run not being a dry run,
    raises no error: the first run finds or creates the database, and the
    second run, dry or not, makes no creation call and reports that the
    database already exists. *)
Theorem create_database_twice (w : W) (dry_run2 : bool) :
  sound w ->
  idempotent_report
    dbname
    (twice (create_database env config_path db_binding false)
           (create_database env config_path db_binding dry_run2) w).
Proof.
  intros Hs. unfold idempotent_report, twice, outcome, trace_of, world_after.
  destruct (present w) eqn:Hp.
  - destruct (create_database_run_found w false Hs Hp)
      as (w' & tr & Hrun & Hs' & Hp' & _ & Hmsg).
    rewrite Hrun. cbn [fst snd].
    destruct (create_database_run_found w' dry_run2 Hs' Hp')
      as (w'' & tr' & Hrun' & _ & _ & Hcount & Hmsg').
    rewrite Hrun'. cbn [fst snd]. auto 10.
  - destruct (create_database_run_created w Hs Hp)
      as (w' & tr & Hrun & Hs' & Hp' & _ & Hmsg).
    rewrite Hrun. cbn [fst snd].
    destruct (create_database_run_found w' dry_run2 Hs' Hp')
      as (w'' & tr' & Hrun' & _ & _ & Hcount & Hmsg').
    rewrite Hrun'. cbn [fst snd]. auto 10.
Qed.

End Idempotence.

(** The world of [DbModel] keeps the contract. *)
Lemma db_model_keeps_contract
      (config_path db_binding : string) (cfg : DbModel.Config) (name : string) :
  collaborators_complete DbModel.env config_path db_binding config_path cfg name
    (DbModel.db_exists name)
    (DbModel.sound config_path db_binding cfg name).
Proof.
  constructor.
  - intros w (Hfile & Hbind & Hon). exists w. cbn. unfold DbModel.db_read_config.
    rewrite Hfile. repeat split; assumption.
  - intros w initialize (Hfile & Hbind & Hon) Hex.
    exists {| connection := 0; database_name := name |}, w.
    cbn. unfold DbModel.db_open. rewrite Hbind, Hon, Hex. cbn.
    repeat split; assumption.
  - intros w (Hfile & Hbind & Hon) Hex.
    exists ("no such database: " ++ name), w.
    cbn. unfold DbModel.db_open. rewrite Hbind, Hon, Hex. cbn.
    repeat split; assumption.
  - intros w (Hfile & Hbind & Hon) Hex.
    exists {| connection := 0; database_name := name |}, (DbModel.db_create name w).
    cbn. unfold DbModel.db_open. rewrite Hbind, Hon, Hex. cbn.
    repeat split; try assumption.
    unfold DbModel.db_exists. cbn. rewrite String.eqb_refl. reflexivity.
  - intros dbmanager w Hs. cbn. split; [exact Hs | reflexivity].
Qed.

Lemma fresh_is_sound :
  DbModel.sound "weewx.conf" "wx_binding" DbModel.station_cfg "weewx.sdb"
                DbModel.fresh.
Proof. repeat split. Qed.

Lemma create_database_twice_witness :
  DbModel.sound "weewx.conf" "wx_binding" DbModel.station_cfg "weewx.sdb"
                DbModel.fresh /\
  idempotent_report
    "weewx.sdb"
    (twice (create_database DbModel.env "weewx.conf" "wx_binding" false)
           (create_database DbModel.env "weewx.conf" "wx_binding" false)
           DbModel.fresh).
Proof.
  split; [exact fresh_is_sound |].
  apply (create_database_twice DbModel.env "weewx.conf" "wx_binding" "weewx.conf"
           DbModel.station_cfg "weewx.sdb"
           (DbModel.db_exists "weewx.sdb")
           (DbModel.sound "weewx.conf" "wx_binding" DbModel.station_cfg "weewx.sdb")
           (db_model_keeps_contract "weewx.conf" "wx_binding"
                                    DbModel.station_cfg "weewx.sdb")
           DbModel.fresh false fresh_is_sound).
Defined.

(** The two runs on the fresh installation, evaluated: the first creates
    the database, the second finds it. *)
Example create_database_twice_on_fresh :
  twice (create_database DbModel.env "weewx.conf" "wx_binding" false)
        (create_database DbModel.env "weewx.conf" "wx_binding" false)
        DbModel.fresh =
    ((Ok tt,
      [Call_read_config "weewx.conf";
       Call_print stdout "The configuration file weewx.conf will be used.";
       Call_open_manager_with_config DbModel.station_cfg "wx_binding" false;
       Call_open_manager_with_config DbModel.station_cfg "wx_binding" true;
       Call_print stdout "Created database 'weewx.sdb'.";
       Call_exit {| connection := 0; database_name := "weewx.sdb" |}]),
     (Ok tt,
      [Call_read_config "weewx.conf";
       Call_print stdout "The configuration file weewx.conf will be used.";
       Call_open_manager_with_config DbModel.station_cfg "wx_binding" false;
       Call_print stdout "Database 'weewx.sdb' already exists. Nothing done.";
       Call_exit {| connection := 0; database_name := "weewx.sdb" |}])).
Proof. reflexivity. Qed.

(** C8 as stated fails twice over.  On a fresh installation two dry runs
    return normally, but the first neither finds nor creates the
    database and the second prints no "already exists" message.  And
    when the database can neither be opened nor created, two runs that
    are not dry both raise the operational error of the creation call. *)
Lemma create_database_twice_not_always :
  ~ idempotent_report
      "weewx.sdb"
      (twice (create_database DbModel.env "weewx.conf" "wx_binding" true)
             (create_database DbModel.env "weewx.conf" "wx_binding" true)
             DbModel.fresh) /\
  ~ idempotent_report
      "weewx.sdb"
      (twice (create_database Mock.env "weewx.conf" "wx_binding" false)
             (create_database Mock.env "weewx.conf" "wx_binding" false)
             Mock.unwritable) /\
  ~ idempotent_report
      "weewx.sdb"
      (twice (create_database DbModel.env "weewx.conf" "wx_binding" false)
             (create_database DbModel.env "weewx.conf" "wx_binding" false)
             DbModel.offline).
Proof.
  unfold idempotent_report. cbn. repeat split.
  - intros (_ & _ & _ & _ & H).
    repeat (destruct H as [H | H]; [discriminate H |]). exact H.
  - intros (H & _). discriminate H.
  - intros (H & _). discriminate H.
Qed.

(** ** drop_daily *)

Lemma drop_failed_is_not_no_summaries (name : string) :
  drop_failed_msg name <> no_summaries_msg name.
Proof. unfold drop_failed_msg, no_summaries_msg. cbn. discriminate. Qed.

Section DropDaily.

Context {Config Float W : Type} (env : Env Config Float W).

Variables (w w1 w2 w3 w4 : W).
Variables (config_path db_binding p : string).
Variables (cfg : Config) (manager_dict : ManagerDict) (t1 : Float).

Local Abbreviation name := (dd_database_name (database_dict manager_dict)).

Hypothesis Hcfg : env_read_config env config_path w = (Ok (p, cfg), w1).
Hypothesis Hdict :
  env_get_manager_dict_from_config env cfg db_binding w1 = (Ok manager_dict, w2).

(** C3.  In a confirmed [drop_daily], an operational error raised by
    [drop_daily()] after a successful open is caught: the error goes to
    stderr, the "failed" message is printed, and the function returns
    normally.  An operational error raised by the open is caught too and
    reported with the "No daily summaries found ... Nothing done."
    message.  The two messages differ, and neither path prints the
    message of the other. *)
Theorem drop_daily_two_failure_paths :
  env_y_or_n env drop_prompt w2 = (Ok "y", w3) ->
  env_time env w3 = (t1, w4) ->
  (forall dbmanager w5 msg w6,
      env_open_manager_with_config env cfg db_binding false w4 =
        (Ok dbmanager, w5) ->
      env_drop_daily env dbmanager w5 = (Raise (OperationalError msg), w6) ->
      outcome (drop_daily env config_path db_binding false) w = Ok tt /\
      printed stderr (trace_of (drop_daily env config_path db_binding false) w) =
        [drop_error_msg (OperationalError msg)] /\
      printed stdout (trace_of (drop_daily env config_path db_binding false) w) =
        [config_msg (env_BOLD env) (env_ENDC env) p;
         proceed_msg name; dropping_msg name; drop_failed_msg name]) /\
  (forall dry_run msg w5,
      env_open_manager_with_config env cfg db_binding false w4 =
        (Raise (OperationalError msg), w5) ->
      outcome (drop_daily env config_path db_binding dry_run) w = Ok tt /\
      printed stderr (trace_of (drop_daily env config_path db_binding dry_run) w) =
        [] /\
      printed stdout (trace_of (drop_daily env config_path db_binding dry_run) w) =
        ((if dry_run then [dry_run_notice] else []) ++
         [config_msg (env_BOLD env) (env_ENDC env) p;
          proceed_msg name; dropping_msg name; no_summaries_msg name] ++
         (if dry_run then [dry_run_done] else []))%list) /\
  drop_failed_msg name <> no_summaries_msg name.
Proof.
  intros Hans Ht1. split; [| split].
  - intros dbmanager w5 msg w6 Hopen Hdrop. unfold_action. answer.
    repeat split.
  - intros dry_run msg w5 Hopen. unfold_action.
    destruct dry_run; answer; repeat split.
  - apply drop_failed_is_not_no_summaries.
Qed.

(** C9.  A confirmed dry run of [drop_daily] whose open succeeds never
    calls [drop_daily()] and still prints the success message "Daily
    summary tables dropped from database ... in ... seconds", the very
    message a real, successful drop prints. *)
Theorem drop_daily_dry_run_reports_success
        (dbmanager : Manager) (w5 w6 : W) (t2 : Float) :
  env_y_or_n env drop_prompt w2 = (Ok "y", w3) ->
  env_time env w3 = (t1, w4) ->
  env_open_manager_with_config env cfg db_binding false w4 = (Ok dbmanager, w5) ->
  env_time env w5 = (t2, w6) ->
  outcome (drop_daily env config_path db_binding true) w = Ok tt /\
  count is_drop (trace_of (drop_daily env config_path db_binding true) w) = 0 /\
  In (dropped_msg name (env_format_2f env (env_float_sub env t2 t1)))
     (printed stdout (trace_of (drop_daily env config_path db_binding true) w)) /\
  (forall w5' w6' t2',
      env_drop_daily env dbmanager w5 = (Ok tt, w5') ->
      env_time env w5' = (t2', w6') ->
      In (dropped_msg name (env_format_2f env (env_float_sub env t2' t1)))
         (printed stdout
            (trace_of (drop_daily env config_path db_binding false) w))).
Proof.
  intros Hans Ht1 Hopen Ht2. unfold_action. unfold count. answer.
  repeat split; auto 10.
  intros w5' w6' t2' Hdrop Ht2'. answer. auto 10.
Qed.

End DropDaily.

(** ** Declining the prompt *)

Section Declined.

Context {Config Float W : Type} (env : Env Config Float W).

Variables (w w1 w2 : W).
Variables (config_path db_binding p : string).
Variables (cfg : Config) (manager_dict : ManagerDict).

Local Abbreviation name := (dd_database_name (database_dict manager_dict)).

Hypothesis Hcfg : env_read_config env config_path w = (Ok (p, cfg), w1).
Hypothesis Hdict :
  env_get_manager_dict_from_config env cfg db_binding w1 = (Ok manager_dict, w2).

(** C6.  When the prompt returns [n], [drop_daily] makes no call to
    [drop_daily()] and [rebuild_daily] makes no call to
    [backfill_day_summary()]; each prints "Nothing done." ([rebuild_daily]
    logs it too) and returns normally. *)
Theorem declined_nothing_done (dry_run : bool) :
  (forall w3,
      env_y_or_n env drop_prompt w2 = (Ok "n", w3) ->
      outcome (drop_daily env config_path db_binding dry_run) w = Ok tt /\
      count is_drop
        (trace_of (drop_daily env config_path db_binding dry_run) w) = 0 /\
      In nothing_done
         (printed stdout
            (trace_of (drop_daily env config_path db_binding dry_run) w))) /\
  (forall date_ from_date to_date from_d to_d w3 w4,
      env_parse_dates env date_ from_date to_date w2 = (Ok (from_d, to_d), w3) ->
      env_y_or_n env (rebuild_prompt name) w3 = (Ok "n", w4) ->
      outcome (rebuild_daily env config_path db_binding date_ from_date to_date
                             dry_run) w = Ok tt /\
      count is_backfill
        (trace_of (rebuild_daily env config_path db_binding date_ from_date
                                 to_date dry_run) w) = 0 /\
      In nothing_done
         (printed stdout
            (trace_of (rebuild_daily env config_path db_binding date_ from_date
                                     to_date dry_run) w)) /\
      In nothing_done
         (logged
            (trace_of (rebuild_daily env config_path db_binding date_ from_date
                                     to_date dry_run) w))).
Proof.
  split.
  - intros w3 Hans. unfold_action. unfold count.
    destruct dry_run; answer; repeat split; auto 10.
  - intros date_ from_date to_date from_d to_d w3 w4 Hdates Hans.
    unfold_action. unfold count.
    destruct dry_run; answer; repeat split; auto 10.
Qed.

End Declined.

(** ** rebuild_daily *)

Lemma range_msg_described (from_d to_d : option date) :
  range_described from_d to_d (range_msg from_d to_d).
Proof.
  unfold range_msg.
  destruct from_d as [f |], to_d as [t |]; cbn; try constructor.
  destruct (date_eqb f t) eqn:E.
  - apply date_eqb_eq in E. subst t. constructor.
  - apply date_eqb_neq in E. constructor. exact E.
Qed.

Lemma range_described_unique (from_d to_d : option date) (m m' : string) :
  range_described from_d to_d m -> range_described from_d to_d m' -> m = m'.
Proof.
  intros H H'. destruct H; inversion H'; subst; try reflexivity; congruence.
Qed.

Section RebuildDaily.

Context {Config Float W : Type} (env : Env Config Float W).

Variables (w w1 w2 w3 : W).
Variables (config_path db_binding p : string).
Variables (date_ from_date to_date : option string).
Variables (cfg : Config) (manager_dict : ManagerDict).
Variables (from_d to_d : option date).

Local Abbreviation name := (dd_database_name (database_dict manager_dict)).

Hypothesis Hcfg : env_read_config env config_path w = (Ok (p, cfg), w1).
Hypothesis Hdict :
  env_get_manager_dict_from_config env cfg db_binding w1 = (Ok manager_dict, w2).
Hypothesis Hdates :
  env_parse_dates env date_ from_date to_date w2 = (Ok (from_d, to_d), w3).

(** C4.  The description of the range that [rebuild_daily] logs and
    prints is the one of the five cases that the parsed pair selects:
    all, starting with, through, a single day, or from-through. *)
Theorem rebuild_daily_range_description (dry_run : bool) :
  exists msg : string,
    range_described from_d to_d msg /\
    (forall msg', range_described from_d to_d msg' -> msg' = msg) /\
    hd_error
      (logged (trace_of (rebuild_daily env config_path db_binding date_ from_date
                                       to_date dry_run) w)) = Some msg /\
    In msg
       (printed stdout
          (trace_of (rebuild_daily env config_path db_binding date_ from_date
                                   to_date dry_run) w)).
Proof.
  exists (range_msg from_d to_d).
  split; [apply range_msg_described |].
  split; [intros msg' H;
          exact (range_described_unique _ _ _ _ H (range_msg_described _ _)) |].
  unfold_action.
  destruct dry_run; answer; case_all; split; auto 10.
Qed.

Variables (w4 w5 : W) (t1 : Float).

Hypothesis Hans : env_y_or_n env (rebuild_prompt name) w3 = (Ok "y", w4).
Hypothesis Ht1 : env_time env w4 = (t1, w5).

(** C7, as amended.  A confirmed [rebuild_daily] that is not a dry run
    makes exactly one open, with [initialize=True]; when that open
    succeeds, [backfill_day_summary] is called exactly once, with the
    parsed dates and [trans_days=20]. *)
Theorem rebuild_daily_opens_then_backfills :
  filter is_open
    (trace_of (rebuild_daily env config_path db_binding date_ from_date to_date
                             false) w) =
    [Call_open_manager_with_config cfg db_binding true] /\
  (forall dbmanager w6,
      env_open_manager_with_config env cfg db_binding true w5 =
        (Ok dbmanager, w6) ->
      filter is_backfill
        (trace_of (rebuild_daily env config_path db_binding date_ from_date
                                 to_date false) w) =
        [Call_backfill_day_summary dbmanager from_d to_d 20]).
Proof.
  unfold_action. answer. split.
  - case_all; reflexivity.
  - intros dbmanager w6 Hopen. answer. case_all; reflexivity.
Qed.

Variables (w6 w7 w8 : W) (dbmanager : Manager) (nrecs ndays : Z) (t2 : Float).

Hypothesis Hopen :
  env_open_manager_with_config env cfg db_binding true w5 = (Ok dbmanager, w6).
Hypothesis Hfill :
  env_backfill_day_summary env dbmanager from_d to_d 20 w6 =
    (Ok (nrecs, ndays), w7).
Hypothesis Ht2 : env_time env (env_exit env dbmanager w7) = (t2, w8).

Local Abbreviation tdiff := (env_format_2f env (env_float_sub env t2 t1)).

Local Abbreviation blank_line := (if (nrecs >=? 1000)%Z then [""] else []).

(** No record processed: the "up to date" message, and no count. *)
Lemma rebuild_daily_up_to_date :
  nrecs = 0%Z ->
  printed stdout
    (trace_of (rebuild_daily env config_path db_binding date_ from_date to_date
                             false) w) =
    [config_msg (env_BOLD env) (env_ENDC env) p; range_msg from_d to_d;
     rebuilding_msg name; up_to_date_msg name].
Proof.
  intros ->. unfold_action. answer. reflexivity.
Qed.

(** One day rebuilt: the singular message, with the elapsed time, after
    a blank line exactly when 1000 records or more were processed. *)
Lemma rebuild_daily_singular :
  nrecs <> 0%Z ->
  ndays = 1%Z ->
  printed stdout
    (trace_of (rebuild_daily env config_path db_binding date_ from_date to_date
                             false) w) =
    ([config_msg (env_BOLD env) (env_ENDC env) p; range_msg from_d to_d;
      rebuilding_msg name] ++
     blank_line ++
     [("Processed " ++ int_str nrecs ++
       " records to rebuild 1 daily summary in " ++ tdiff ++ " seconds.")%string;
      rebuild_complete_msg name])%list.
Proof.
  intros Hn ->. unfold_action. answer.
  apply Z.eqb_neq in Hn. rewrite Hn. cbn.
  destruct (nrecs >=? 1000)%Z; reflexivity.
Qed.

(** C1, what the code does.  When records were processed for a number
    of days other than one, the count message ends in the literal text
    [{tdiff:.2f} seconds.]: the elapsed time is not in it, nor in any
    other line printed. *)
Theorem rebuild_daily_plural_lacks_elapsed_time :
  (nrecs > 0)%Z ->
  (ndays > 1)%Z ->
  printed stdout
    (trace_of (rebuild_daily env config_path db_binding date_ from_date to_date
                             false) w) =
    ([config_msg (env_BOLD env) (env_ENDC env) p; range_msg from_d to_d;
      rebuilding_msg name] ++
     blank_line ++
     [("Processed " ++ int_str nrecs ++ " records to rebuild " ++
       int_str ndays ++ " daily summaries in {tdiff:.2f} seconds.")%string;
      rebuild_complete_msg name])%list.
Proof.
  intros Hn Hd. unfold_action. answer.
  assert (En : (nrecs =? 0)%Z = false) by (apply Z.eqb_neq; lia).
  assert (Ed : (ndays =? 1)%Z = false) by (apply Z.eqb_neq; lia).
  rewrite En. cbn.
  unfold count_msg. rewrite Ed.
  destruct (nrecs >=? 1000)%Z; reflexivity.
Qed.

End RebuildDaily.

(** ** The theorems at work on scripted runs *)

Lemma drop_daily_two_failure_paths_witness :
  (env_y_or_n Mock.env drop_prompt Mock.locked = (Ok "y", Mock.locked) /\
   env_open_manager_with_config Mock.env Mock.cfg "wx_binding" false
     (Mock.advance Mock.locked) = (Ok Mock.mgr, Mock.advance Mock.locked) /\
   env_drop_daily Mock.env Mock.mgr (Mock.advance Mock.locked) =
     (Raise (OperationalError "database is locked"), Mock.advance Mock.locked) /\
   outcome (drop_daily Mock.env "weewx.conf" "wx_binding" false) Mock.locked =
     Ok tt) /\
  (env_y_or_n Mock.env drop_prompt Mock.missing = (Ok "y", Mock.missing) /\
   env_open_manager_with_config Mock.env Mock.cfg "wx_binding" false
     (Mock.advance Mock.missing) =
     (Raise (OperationalError "no such database"), Mock.advance Mock.missing) /\
   outcome (drop_daily Mock.env "weewx.conf" "wx_binding" false) Mock.missing =
     Ok tt).
Proof.
  split.
  - split; [reflexivity | split; [reflexivity | split; [reflexivity |]]].
    apply (proj1 (drop_daily_two_failure_paths Mock.env
                    Mock.locked Mock.locked Mock.locked Mock.locked
                    (Mock.advance Mock.locked)
                    "weewx.conf" "wx_binding" "/etc/weewx/weewx.conf"
                    Mock.cfg Mock.mgr_dict 100000%Z
                    eq_refl eq_refl eq_refl eq_refl)
                 Mock.mgr (Mock.advance Mock.locked) "database is locked"
                 (Mock.advance Mock.locked) eq_refl eq_refl).
  - split; [reflexivity | split; [reflexivity |]].
    apply (proj1 (proj2 (drop_daily_two_failure_paths Mock.env
                    Mock.missing Mock.missing Mock.missing Mock.missing
                    (Mock.advance Mock.missing)
                    "weewx.conf" "wx_binding" "/etc/weewx/weewx.conf"
                    Mock.cfg Mock.mgr_dict 100000%Z
                    eq_refl eq_refl eq_refl eq_refl))
                 false "no such database" (Mock.advance Mock.missing) eq_refl).
Defined.

Lemma drop_daily_dry_run_reports_success_witness :
  env_y_or_n Mock.env drop_prompt Mock.healthy = (Ok "y", Mock.healthy) /\
  env_open_manager_with_config Mock.env Mock.cfg "wx_binding" false
    (Mock.advance Mock.healthy) = (Ok Mock.mgr, Mock.advance Mock.healthy) /\
  count is_drop
    (trace_of (drop_daily Mock.env "weewx.conf" "wx_binding" true) Mock.healthy)
    = 0 /\
  In (dropped_msg "weewx.sdb" "1.23")
     (printed stdout
        (trace_of (drop_daily Mock.env "weewx.conf" "wx_binding" true)
                  Mock.healthy)).
Proof.
  split; [reflexivity | split; [reflexivity |]].
  pose proof (drop_daily_dry_run_reports_success Mock.env
                Mock.healthy Mock.healthy Mock.healthy Mock.healthy
                (Mock.advance Mock.healthy)
                "weewx.conf" "wx_binding" "/etc/weewx/weewx.conf"
                Mock.cfg Mock.mgr_dict 100000%Z eq_refl eq_refl
                Mock.mgr (Mock.advance Mock.healthy)
                (Mock.advance (Mock.advance Mock.healthy)) 100123%Z
                eq_refl eq_refl eq_refl eq_refl) as (_ & Hdrop & Hmsg & _).
  split; [exact Hdrop | exact Hmsg].
Defined.

Lemma declined_nothing_done_witness :
  (env_y_or_n Mock.env drop_prompt Mock.declining = (Ok "n", Mock.declining) /\
   outcome (drop_daily Mock.env "weewx.conf" "wx_binding" false) Mock.declining =
     Ok tt) /\
  (env_y_or_n Mock.env (rebuild_prompt "weewx.sdb") Mock.declining =
     (Ok "n", Mock.declining) /\
   outcome (rebuild_daily Mock.env "weewx.conf" "wx_binding" None None None false)
           Mock.declining = Ok tt).
Proof.
  pose proof (declined_nothing_done Mock.env
                Mock.declining Mock.declining Mock.declining
                "weewx.conf" "wx_binding" "/etc/weewx/weewx.conf"
                Mock.cfg Mock.mgr_dict eq_refl eq_refl false) as [Hdrop Hrebuild].
  split.
  - split; [reflexivity |].
    apply (Hdrop Mock.declining eq_refl).
  - split; [reflexivity |].
    apply (Hrebuild None None None None None Mock.declining Mock.declining
                    eq_refl eq_refl).
Defined.

Lemma rebuild_daily_range_description_witness :
  env_parse_dates Mock.env None (Some "2020-01-01") None Mock.from_2020 =
    (Ok (Some (mkdate 2020 1 1), None), Mock.from_2020) /\
  exists msg : string,
    range_described (Some (mkdate 2020 1 1)) None msg /\
    (forall msg', range_described (Some (mkdate 2020 1 1)) None msg' -> msg' = msg) /\
    hd_error
      (logged (trace_of (rebuild_daily Mock.env "weewx.conf" "wx_binding"
                                       None (Some "2020-01-01") None true)
                        Mock.from_2020)) = Some msg /\
    In msg
       (printed stdout
          (trace_of (rebuild_daily Mock.env "weewx.conf" "wx_binding"
                                   None (Some "2020-01-01") None true)
                    Mock.from_2020)).
Proof.
  split; [reflexivity |].
  apply (rebuild_daily_range_description Mock.env
           Mock.from_2020 Mock.from_2020 Mock.from_2020 Mock.from_2020
           "weewx.conf" "wx_binding" "/etc/weewx/weewx.conf"
           None (Some "2020-01-01") None Mock.cfg Mock.mgr_dict
           (Some (mkdate 2020 1 1)) None eq_refl eq_refl eq_refl true).
Defined.

Lemma rebuild_daily_opens_then_backfills_witness :
  env_y_or_n Mock.env (rebuild_prompt "weewx.sdb") Mock.healthy =
    (Ok "y", Mock.healthy) /\
  env_open_manager_with_config Mock.env Mock.cfg "wx_binding" true
    (Mock.advance Mock.healthy) = (Ok Mock.mgr, Mock.advance Mock.healthy) /\
  filter is_backfill
    (trace_of (rebuild_daily Mock.env "weewx.conf" "wx_binding" None None None false)
              Mock.healthy) =
    [Call_backfill_day_summary Mock.mgr None None 20].
Proof.
  split; [reflexivity | split; [reflexivity |]].
  apply (proj2 (rebuild_daily_opens_then_backfills Mock.env
                  Mock.healthy Mock.healthy Mock.healthy Mock.healthy
                  "weewx.conf" "wx_binding" "/etc/weewx/weewx.conf"
                  None None None Mock.cfg Mock.mgr_dict None None
                  eq_refl eq_refl eq_refl
                  Mock.healthy (Mock.advance Mock.healthy) 100000%Z
                  eq_refl eq_refl)
               Mock.mgr (Mock.advance Mock.healthy) eq_refl).
Defined.

(** C7 as stated fails: when the open with [initialize=True] raises, a
    confirmed run that is not a dry run never reaches
    [backfill_day_summary]; the error leaves the function. *)
Lemma rebuild_daily_backfill_needs_open :
  env_y_or_n Mock.env (rebuild_prompt "weewx.sdb") Mock.unwritable =
    (Ok "y", Mock.unwritable) /\
  filter is_open
    (trace_of (rebuild_daily Mock.env "weewx.conf" "wx_binding" None None None false)
              Mock.unwritable) =
    [Call_open_manager_with_config Mock.cfg "wx_binding" true] /\
  count is_backfill
    (trace_of (rebuild_daily Mock.env "weewx.conf" "wx_binding" None None None false)
              Mock.unwritable) <> 1 /\
  outcome (rebuild_daily Mock.env "weewx.conf" "wx_binding" None None None false)
          Mock.unwritable =
    Raise (OperationalError "unable to open database file").
Proof.
  repeat split. cbn. discriminate.
Qed.

Lemma rebuild_daily_plural_lacks_elapsed_time_witness :
  env_backfill_day_summary Mock.env Mock.mgr None None 20
    (Mock.advance Mock.healthy) = (Ok (5, 2)%Z, Mock.advance Mock.healthy) /\
  (5 > 0)%Z /\ (2 > 1)%Z /\
  env_format_2f Mock.env (env_float_sub Mock.env 100123 100000)%Z = "1.23" /\
  printed stdout
    (trace_of (rebuild_daily Mock.env "weewx.conf" "wx_binding" None None None false)
              Mock.healthy) =
    [config_msg "<b>" "</b>" "/etc/weewx/weewx.conf";
     "All daily summaries will be rebuilt.";
     rebuilding_msg "weewx.sdb";
     "Processed 5 records to rebuild 2 daily summaries in {tdiff:.2f} seconds.";
     rebuild_complete_msg "weewx.sdb"].
Proof.
  split; [reflexivity | split; [lia | split; [lia | split; [reflexivity |]]]].
  apply (rebuild_daily_plural_lacks_elapsed_time Mock.env
           Mock.healthy Mock.healthy Mock.healthy Mock.healthy
           "weewx.conf" "wx_binding" "/etc/weewx/weewx.conf"
           None None None Mock.cfg Mock.mgr_dict None None
           eq_refl eq_refl eq_refl
           Mock.healthy (Mock.advance Mock.healthy) 100000%Z
           eq_refl eq_refl
           (Mock.advance Mock.healthy) (Mock.advance Mock.healthy)
           (Mock.advance (Mock.advance Mock.healthy))
           Mock.mgr 5%Z 2%Z 100123%Z
           eq_refl eq_refl eq_refl); lia.
Defined.

(** ** What each action never does *)

Section Footprint.

Context {Config Float W : Type} (env : Env Config Float W).

(** [create_database] never asks for confirmation and never drops or
    backfills; it opens the database at most twice, at most once with
    [initialize=True], and the first open is never the initializing one. *)
Theorem create_database_footprint
        (w : W) (config_path db_binding : string) (dry_run : bool) :
  let tr := trace_of (create_database env config_path db_binding dry_run) w in
  count is_prompt tr = 0 /\
  count is_drop tr = 0 /\
  count is_backfill tr = 0 /\
  count is_create tr <= 1 /\
  count is_open tr <= 2 /\
  (hd_error (filter is_open tr) = None \/
   exists cfg, hd_error (filter is_open tr) =
                 Some (Call_open_manager_with_config cfg db_binding false)).
Proof.
  unfold_action. unfold count.
  destruct dry_run; case_all; repeat split; try lia; eauto.
Qed.

(** [drop_daily] never creates or initializes a database and never
    backfills: it opens at most once, never with [initialize=True], and
    calls [drop_daily()] at most once. *)
Theorem drop_daily_footprint
        (w : W) (config_path db_binding : string) (dry_run : bool) :
  let tr := trace_of (drop_daily env config_path db_binding dry_run) w in
  count is_create tr = 0 /\
  count is_backfill tr = 0 /\
  count is_open tr <= 1 /\
  count is_drop tr <= 1 /\
  count is_prompt tr <= 1.
Proof.
  unfold_action. unfold count.
  destruct dry_run; case_all; repeat split; lia.
Qed.

(** [rebuild_daily] never drops the daily summaries and never opens the
    database without [initialize=True]; it opens at most once and
    backfills at most once. *)
Theorem rebuild_daily_footprint
        (w : W) (config_path db_binding : string)
        (date_ from_date to_date : option string) (dry_run : bool) :
  let tr := trace_of (rebuild_daily env config_path db_binding date_ from_date
                                    to_date dry_run) w in
  count is_drop tr = 0 /\
  count is_open tr = count is_create tr /\
  count is_open tr <= 1 /\
  count is_backfill tr <= 1 /\
  count is_prompt tr <= 1.
Proof.
  unfold_action. unfold count.
  destruct dry_run; case_all; repeat split; lia.
Qed.

(** Neither [drop_daily] nor [rebuild_daily] touches the database before
    the user has been asked: no open of any kind, no drop and no backfill
    is made before the prompt, and none at all when the prompt is never
    reached. *)
Theorem nothing_opened_before_prompt
        (w : W) (config_path db_binding : string)
        (date_ from_date to_date : option string) (dry_run : bool) :
  let tr_drop := trace_of (drop_daily env config_path db_binding dry_run) w in
  let tr_rebuild := trace_of (rebuild_daily env config_path db_binding date_
                                            from_date to_date dry_run) w in
  (count is_open (before_prompt tr_drop) = 0 /\
   count is_mutating (before_prompt tr_drop) = 0 /\
   (count is_prompt tr_drop = 0 ->
    count is_open tr_drop = 0 /\ count is_mutating tr_drop = 0)) /\
  (count is_open (before_prompt tr_rebuild) = 0 /\
   count is_mutating (before_prompt tr_rebuild) = 0 /\
   (count is_prompt tr_rebuild = 0 ->
    count is_open tr_rebuild = 0 /\ count is_mutating tr_rebuild = 0)).
Proof.
  unfold_action. unfold count. split.
  - destruct dry_run; case_all; repeat split; try reflexivity;
      cbn; intros; try discriminate; split; reflexivity.
  - destruct dry_run; case_all; repeat split; try reflexivity;
      cbn; intros; try discriminate; split; reflexivity.
Qed.

End Footprint.

(** ** Errors before the prompt *)

Section EarlyErrors.

Context {Config Float W : Type} (env : Env Config Float W).

Variables (w w1 : W) (config_path db_binding : string).
Variables (date_ from_date to_date : option string).

(** When the configuration cannot be read, each of the three actions
    raises the error of [read_config] at once: after the dry-run notice,
    if any, nothing is printed or logged and no other collaborator is
    called. *)
Theorem unreadable_configuration_is_fatal (e : exn) (dry_run : bool) :
  env_read_config env config_path w = (Raise e, w1) ->
  let stopped := ((if dry_run then [Call_print stdout dry_run_notice] else []) ++
                  [Call_read_config config_path])%list in
  (outcome (create_database env config_path db_binding dry_run) w = Raise e /\
   trace_of (create_database env config_path db_binding dry_run) w = stopped) /\
  (outcome (drop_daily env config_path db_binding dry_run) w = Raise e /\
   trace_of (drop_daily env config_path db_binding dry_run) w = stopped) /\
  (outcome (rebuild_daily env config_path db_binding date_ from_date to_date
                          dry_run) w = Raise e /\
   trace_of (rebuild_daily env config_path db_binding date_ from_date to_date
                           dry_run) w = stopped).
Proof.
  intros Hcfg. unfold_action.
  destruct dry_run; answer; repeat split.
Qed.

Variables (p : string) (cfg : Config) (w2 : W).

Hypothesis Hcfg : env_read_config env config_path w = (Ok (p, cfg), w1).

(** When the binding cannot be resolved, [drop_daily] and [rebuild_daily]
    raise the error of [get_manager_dict_from_config] without asking the
    user anything, without parsing the dates and without opening the
    database. *)
Theorem unknown_binding_is_fatal (e : exn) (dry_run : bool) :
  env_get_manager_dict_from_config env cfg db_binding w1 = (Raise e, w2) ->
  let stopped := ((if dry_run then [Call_print stdout dry_run_notice] else []) ++
                  [Call_read_config config_path;
                   Call_print stdout (config_msg (env_BOLD env) (env_ENDC env) p);
                   Call_get_manager_dict_from_config cfg db_binding])%list in
  (outcome (drop_daily env config_path db_binding dry_run) w = Raise e /\
   trace_of (drop_daily env config_path db_binding dry_run) w = stopped) /\
  (outcome (rebuild_daily env config_path db_binding date_ from_date to_date
                          dry_run) w = Raise e /\
   trace_of (rebuild_daily env config_path db_binding date_ from_date to_date
                           dry_run) w = stopped).
Proof.
  intros Hdict. unfold_action.
  destruct dry_run; answer; repeat split.
Qed.

Variables (manager_dict : ManagerDict) (w3 : W).

Hypothesis Hdict :
  env_get_manager_dict_from_config env cfg db_binding w1 = (Ok manager_dict, w2).

(** When the dates do not parse, [rebuild_daily] raises the error of
    [parse_dates] before it logs anything, asks anything or opens the
    database. *)
Theorem unparsable_dates_are_fatal (e : exn) (dry_run : bool) :
  env_parse_dates env date_ from_date to_date w2 = (Raise e, w3) ->
  let tr := trace_of (rebuild_daily env config_path db_binding date_ from_date
                                    to_date dry_run) w in
  outcome (rebuild_daily env config_path db_binding date_ from_date to_date
                         dry_run) w = Raise e /\
  logged tr = [] /\
  printed stdout tr =
    (notice_if dry_run ++ [config_msg (env_BOLD env) (env_ENDC env) p])%list /\
  count is_prompt tr = 0 /\
  count is_open tr = 0.
Proof.
  intros Hdates. unfold_action. unfold count.
  destruct dry_run; answer; repeat split.
Qed.

End EarlyErrors.

Lemma unreadable_configuration_is_fatal_witness :
  env_read_config Mock.env "weewx.conf" Mock.unreadable =
    (Raise (OtherError "FileNotFoundError" "weewx.conf"), Mock.unreadable) /\
  outcome (drop_daily Mock.env "weewx.conf" "wx_binding" false) Mock.unreadable =
    Raise (OtherError "FileNotFoundError" "weewx.conf") /\
  trace_of (drop_daily Mock.env "weewx.conf" "wx_binding" false) Mock.unreadable =
    [Call_read_config "weewx.conf"].
Proof.
  split; [reflexivity |].
  apply (unreadable_configuration_is_fatal Mock.env
           Mock.unreadable Mock.unreadable "weewx.conf" "wx_binding"
           None None None (OtherError "FileNotFoundError" "weewx.conf") false
           eq_refl).
Defined.

Lemma unknown_binding_is_fatal_witness :
  env_get_manager_dict_from_config Mock.env Mock.cfg "wx_binding" Mock.unbound =
    (Raise (OtherError "UnknownBinding" "wx_binding"), Mock.unbound) /\
  outcome (rebuild_daily Mock.env "weewx.conf" "wx_binding" None None None false)
          Mock.unbound =
    Raise (OtherError "UnknownBinding" "wx_binding").
Proof.
  split; [reflexivity |].
  apply (unknown_binding_is_fatal Mock.env
           Mock.unbound Mock.unbound "weewx.conf" "wx_binding"
           None None None "/etc/weewx/weewx.conf" Mock.cfg Mock.unbound
           eq_refl (OtherError "UnknownBinding" "wx_binding") false eq_refl).
Defined.

Lemma unparsable_dates_are_fatal_witness :
  env_parse_dates Mock.env (Some "2020-13-41") None None Mock.bad_dates =
    (Raise (OtherError "ValueError" "Invalid --date option specified."),
     Mock.bad_dates) /\
  outcome (rebuild_daily Mock.env "weewx.conf" "wx_binding"
                         (Some "2020-13-41") None None false) Mock.bad_dates =
    Raise (OtherError "ValueError" "Invalid --date option specified.").
Proof.
  split; [reflexivity |].
  apply (unparsable_dates_are_fatal Mock.env
           Mock.bad_dates Mock.bad_dates "weewx.conf" "wx_binding"
           (Some "2020-13-41") None None "/etc/weewx/weewx.conf" Mock.cfg
           Mock.bad_dates eq_refl Mock.mgr_dict Mock.bad_dates eq_refl
           (OtherError "ValueError" "Invalid --date option specified.") false
           eq_refl).
Defined.

(** ** Errors of the database in create_database *)

Section CreateDatabaseErrors.

Context {Config Float W : Type} (env : Env Config Float W).

Variables (w w1 w2 : W) (config_path db_binding p : string) (cfg : Config).

Hypothesis Hcfg : env_read_config env config_path w = (Ok (p, cfg), w1).

(** An error of the first open that is not operational is not taken for
    "the database does not exist": [create_database] lets it through and
    makes no creation call, dry run or not. *)
Theorem create_database_other_error_passes (kind msg : string) (dry_run : bool) :
  env_open_manager_with_config env cfg db_binding false w1 =
    (Raise (OtherError kind msg), w2) ->
  let tr := trace_of (create_database env config_path db_binding dry_run) w in
  outcome (create_database env config_path db_binding dry_run) w =
    Raise (OtherError kind msg) /\
  count is_create tr = 0 /\
  count is_open tr = 1 /\
  printed stdout tr =
    (notice_if dry_run ++ [config_msg (env_BOLD env) (env_ENDC env) p])%list.
Proof.
  intros Hopen. unfold_action. unfold count.
  destruct dry_run; answer; repeat split.
Qed.

(** When the first open fails with an operational error and the creation
    fails too, whatever its error, that second error leaves
    [create_database]: it is not caught, nothing is said about the
    database, and no manager is left to close. *)
Theorem create_database_creation_error_passes (msg : string) (e : exn) (w3 : W) :
  env_open_manager_with_config env cfg db_binding false w1 =
    (Raise (OperationalError msg), w2) ->
  env_open_manager_with_config env cfg db_binding true w2 = (Raise e, w3) ->
  let tr := trace_of (create_database env config_path db_binding false) w in
  outcome (create_database env config_path db_binding false) w = Raise e /\
  printed stdout tr = [config_msg (env_BOLD env) (env_ENDC env) p] /\
  count is_create tr = 1 /\
  count is_exit tr = 0.
Proof.
  intros Hopen Hinit. unfold_action. unfold count. answer. repeat split.
Qed.

End CreateDatabaseErrors.

Lemma create_database_other_error_passes_witness :
  env_open_manager_with_config Mock.env Mock.cfg "wx_binding" false Mock.corrupt =
    (Raise (OtherError "ProgrammingError" "file is not a database"), Mock.corrupt) /\
  outcome (create_database Mock.env "weewx.conf" "wx_binding" false) Mock.corrupt =
    Raise (OtherError "ProgrammingError" "file is not a database") /\
  count is_create
    (trace_of (create_database Mock.env "weewx.conf" "wx_binding" false)
              Mock.corrupt) = 0.
Proof.
  split; [reflexivity |].
  pose proof (create_database_other_error_passes Mock.env
                Mock.corrupt Mock.corrupt Mock.corrupt
                "weewx.conf" "wx_binding" "/etc/weewx/weewx.conf" Mock.cfg
                eq_refl "ProgrammingError" "file is not a database" false
                eq_refl) as (Hout & Hcreate & _).
  split; [exact Hout | exact Hcreate].
Defined.

Lemma create_database_creation_error_passes_witness :
  env_open_manager_with_config Mock.env Mock.cfg "wx_binding" false Mock.unwritable =
    (Raise (OperationalError "unable to open database file"), Mock.unwritable) /\
  env_open_manager_with_config Mock.env Mock.cfg "wx_binding" true Mock.unwritable =
    (Raise (OperationalError "unable to open database file"), Mock.unwritable) /\
  outcome (create_database Mock.env "weewx.conf" "wx_binding" false)
          Mock.unwritable =
    Raise (OperationalError "unable to open database file").
Proof.
  split; [reflexivity | split; [reflexivity |]].
  apply (create_database_creation_error_passes Mock.env
           Mock.unwritable Mock.unwritable Mock.unwritable
           "weewx.conf" "wx_binding" "/etc/weewx/weewx.conf" Mock.cfg
           eq_refl "unable to open database file"
           (OperationalError "unable to open database file") Mock.unwritable
           eq_refl eq_refl).
Defined.

(** ** The confirmed paths of drop_daily *)

Section DropDailyPaths.

Context {Config Float W : Type} (env : Env Config Float W).

Variables (w w1 w2 w3 : W).
Variables (config_path db_binding p : string).
Variables (cfg : Config) (manager_dict : ManagerDict).

Local Abbreviation name := (dd_database_name (database_dict manager_dict)).

Hypothesis Hcfg : env_read_config env config_path w = (Ok (p, cfg), w1).
Hypothesis Hdict :
  env_get_manager_dict_from_config env cfg db_binding w1 = (Ok manager_dict, w2).

(** [drop_daily] goes ahead on the answer [y] and on no other: whatever
    else the prompt returns, the database is not opened, nothing is
    dropped, the clock is not read, and "Nothing done." is printed. *)
Theorem drop_daily_only_y_confirms (ans : string) (dry_run : bool) :
  env_y_or_n env drop_prompt w2 = (Ok ans, w3) ->
  ans <> "y" ->
  let tr := trace_of (drop_daily env config_path db_binding dry_run) w in
  outcome (drop_daily env config_path db_binding dry_run) w = Ok tt /\
  count is_open tr = 0 /\
  count is_drop tr = 0 /\
  count is_time tr = 0 /\
  printed stdout tr =
    (notice_if dry_run ++
     [config_msg (env_BOLD env) (env_ENDC env) p; proceed_msg name; nothing_done] ++
     (if dry_run then [dry_run_done] else []))%list.
Proof.
  intros Hans Hne. apply String.eqb_neq in Hne.
  unfold_action. unfold count.
  destruct dry_run; answer; repeat split.
Qed.

Variables (w4 w5 : W) (t1 : Float) (dbmanager : Manager).

Hypothesis Hans : env_y_or_n env drop_prompt w2 = (Ok "y", w3).
Hypothesis Ht1 : env_time env w3 = (t1, w4).

(** An error of the open that is not operational is not reported as "No
    daily summaries found": it leaves [drop_daily], and the closing
    dry-run line is not printed either. *)
Theorem drop_daily_open_other_error_passes (kind msg : string) (dry_run : bool) :
  env_open_manager_with_config env cfg db_binding false w4 =
    (Raise (OtherError kind msg), w5) ->
  let tr := trace_of (drop_daily env config_path db_binding dry_run) w in
  outcome (drop_daily env config_path db_binding dry_run) w =
    Raise (OtherError kind msg) /\
  printed stdout tr =
    (notice_if dry_run ++
     [config_msg (env_BOLD env) (env_ENDC env) p; proceed_msg name;
      dropping_msg name])%list /\
  printed stderr tr = [] /\
  count is_drop tr = 0.
Proof.
  intros Hopen. unfold_action. unfold count.
  destruct dry_run; answer; repeat split.
Qed.

Hypothesis Hopen :
  env_open_manager_with_config env cfg db_binding false w4 = (Ok dbmanager, w5).

(** An error of [drop_daily()] that is not operational is not caught: it
    leaves the function after the manager has been closed, and neither
    the success nor the failure message is printed. *)
Theorem drop_daily_drop_other_error_passes (kind msg : string) (w6 : W) :
  env_drop_daily env dbmanager w5 = (Raise (OtherError kind msg), w6) ->
  let tr := trace_of (drop_daily env config_path db_binding false) w in
  outcome (drop_daily env config_path db_binding false) w =
    Raise (OtherError kind msg) /\
  world_after (drop_daily env config_path db_binding false) w =
    env_exit env dbmanager w6 /\
  last tr Call_time = Call_exit dbmanager /\
  printed stdout tr =
    [config_msg (env_BOLD env) (env_ENDC env) p; proceed_msg name;
     dropping_msg name] /\
  printed stderr tr = [].
Proof.
  intros Hdrop. unfold_action. answer. repeat split.
Qed.

(** A confirmed drop that succeeds: one open without initialization, one
    [drop_daily()] on the manager it returned, the clock read a second
    time, the success message with the time elapsed since before the
    open, and the manager closed last. *)
Theorem drop_daily_drops_once (w6 w7 : W) (t2 : Float) :
  env_drop_daily env dbmanager w5 = (Ok tt, w6) ->
  env_time env w6 = (t2, w7) ->
  outcome (drop_daily env config_path db_binding false) w = Ok tt /\
  world_after (drop_daily env config_path db_binding false) w =
    env_exit env dbmanager w7 /\
  trace_of (drop_daily env config_path db_binding false) w =
    [Call_read_config config_path;
     Call_print stdout (config_msg (env_BOLD env) (env_ENDC env) p);
     Call_get_manager_dict_from_config cfg db_binding;
     Call_print stdout (proceed_msg name);
     Call_y_or_n drop_prompt;
     Call_time;
     Call_print stdout (dropping_msg name);
     Call_open_manager_with_config cfg db_binding false;
     Call_drop_daily dbmanager;
     Call_time;
     Call_print stdout
       (dropped_msg name (env_format_2f env (env_float_sub env t2 t1)));
     Call_exit dbmanager].
Proof.
  intros Hdrop Ht2. unfold_action. answer. repeat split.
Qed.

End DropDailyPaths.

Lemma drop_daily_only_y_confirms_witness :
  env_y_or_n Mock.env drop_prompt Mock.mumbling = (Ok "maybe", Mock.mumbling) /\
  "maybe" <> "y" /\
  outcome (drop_daily Mock.env "weewx.conf" "wx_binding" false) Mock.mumbling =
    Ok tt /\
  count is_open
    (trace_of (drop_daily Mock.env "weewx.conf" "wx_binding" false) Mock.mumbling)
    = 0.
Proof.
  split; [reflexivity | split; [discriminate |]].
  pose proof (drop_daily_only_y_confirms Mock.env
                Mock.mumbling Mock.mumbling Mock.mumbling Mock.mumbling
                "weewx.conf" "wx_binding" "/etc/weewx/weewx.conf"
                Mock.cfg Mock.mgr_dict eq_refl eq_refl "maybe" false eq_refl
                ltac:(discriminate)) as (Hout & Hopen & _).
  split; [exact Hout | exact Hopen].
Defined.

Lemma drop_daily_open_other_error_passes_witness :
  env_open_manager_with_config Mock.env Mock.cfg "wx_binding" false
    (Mock.advance Mock.corrupt) =
    (Raise (OtherError "ProgrammingError" "file is not a database"),
     Mock.advance Mock.corrupt) /\
  outcome (drop_daily Mock.env "weewx.conf" "wx_binding" true) Mock.corrupt =
    Raise (OtherError "ProgrammingError" "file is not a database").
Proof.
  split; [reflexivity |].
  apply (drop_daily_open_other_error_passes Mock.env
           Mock.corrupt Mock.corrupt Mock.corrupt Mock.corrupt
           "weewx.conf" "wx_binding" "/etc/weewx/weewx.conf"
           Mock.cfg Mock.mgr_dict eq_refl eq_refl
           (Mock.advance Mock.corrupt) (Mock.advance Mock.corrupt) 100000%Z
           eq_refl eq_refl "ProgrammingError" "file is not a database" true
           eq_refl).
Defined.

Lemma drop_daily_drop_other_error_passes_witness :
  env_drop_daily Mock.env Mock.mgr (Mock.advance Mock.drop_crashes) =
    (Raise (OtherError "ProgrammingError" "no such table"),
     Mock.advance Mock.drop_crashes) /\
  outcome (drop_daily Mock.env "weewx.conf" "wx_binding" false) Mock.drop_crashes =
    Raise (OtherError "ProgrammingError" "no such table").
Proof.
  split; [reflexivity |].
  apply (drop_daily_drop_other_error_passes Mock.env
           Mock.drop_crashes Mock.drop_crashes Mock.drop_crashes Mock.drop_crashes
           "weewx.conf" "wx_binding" "/etc/weewx/weewx.conf"
           Mock.cfg Mock.mgr_dict eq_refl eq_refl
           (Mock.advance Mock.drop_crashes) (Mock.advance Mock.drop_crashes)
           100000%Z Mock.mgr eq_refl eq_refl eq_refl
           "ProgrammingError" "no such table" (Mock.advance Mock.drop_crashes)
           eq_refl).
Defined.

Lemma drop_daily_drops_once_witness :
  env_drop_daily Mock.env Mock.mgr (Mock.advance Mock.healthy) =
    (Ok tt, Mock.advance Mock.healthy) /\
  outcome (drop_daily Mock.env "weewx.conf" "wx_binding" false) Mock.healthy =
    Ok tt.
Proof.
  split; [reflexivity |].
  apply (drop_daily_drops_once Mock.env
           Mock.healthy Mock.healthy Mock.healthy Mock.healthy
           "weewx.conf" "wx_binding" "/etc/weewx/weewx.conf"
           Mock.cfg Mock.mgr_dict eq_refl eq_refl
           (Mock.advance Mock.healthy) (Mock.advance Mock.healthy)
           100000%Z Mock.mgr eq_refl eq_refl eq_refl
           (Mock.advance Mock.healthy) (Mock.advance (Mock.advance Mock.healthy))
           100123%Z eq_refl eq_refl).
Defined.

(** ** The confirmed paths of rebuild_daily *)

Lemma range_msg_is_not_completion (from_d to_d : option date) (name : string) :
  range_msg from_d to_d <> rebuild_complete_msg name.
Proof.
  unfold range_msg, rebuild_complete_msg.
  destruct from_d as [f |], to_d as [t |]; cbn; try discriminate.
  destruct (date_eqb f t); discriminate.
Qed.

Section RebuildDailyPaths.

Context {Config Float W : Type} (env : Env Config Float W).

Variables (w w1 w2 w3 w4 w5 : W).
Variables (config_path db_binding p : string).
Variables (date_ from_date to_date : option string).
Variables (cfg : Config) (manager_dict : ManagerDict).
Variables (from_d to_d : option date) (ans : string) (t1 : Float).

Local Abbreviation name := (dd_database_name (database_dict manager_dict)).

Hypothesis Hcfg : env_read_config env config_path w = (Ok (p, cfg), w1).
Hypothesis Hdict :
  env_get_manager_dict_from_config env cfg db_binding w1 = (Ok manager_dict, w2).
Hypothesis Hdates :
  env_parse_dates env date_ from_date to_date w2 = (Ok (from_d, to_d), w3).
Hypothesis Hans : env_y_or_n env (rebuild_prompt name) w3 = (Ok ans, w4).
Hypothesis Hne : ans <> "n".
Hypothesis Ht1 : env_time env w4 = (t1, w5).

(** [rebuild_daily] stops on the answer [n] and on no other: on any other
    answer a run that is not dry announces the rebuild, in the log and on
    stdout, and makes its one open, with [initialize=True]. *)
Theorem rebuild_daily_only_n_declines :
  let tr := trace_of (rebuild_daily env config_path db_binding date_ from_date
                                    to_date false) w in
  filter is_open tr = [Call_open_manager_with_config cfg db_binding true] /\
  firstn 2 (logged tr) = [range_msg from_d to_d; rebuilding_msg name] /\
  firstn 3 (printed stdout tr) =
    [config_msg (env_BOLD env) (env_ENDC env) p; range_msg from_d to_d;
     rebuilding_msg name].
Proof.
  pose proof (proj2 (String.eqb_neq _ _) Hne) as Hne'.
  unfold_action. answer. case_all; repeat split.
Qed.

(** A confirmed dry run of [rebuild_daily] announces the rebuild, says
    that it was a dry run and returns: the database is not opened and the
    clock is read once. *)
Theorem rebuild_daily_dry_run_stops_before_open :
  outcome (rebuild_daily env config_path db_binding date_ from_date to_date true)
          w = Ok tt /\
  world_after (rebuild_daily env config_path db_binding date_ from_date to_date
                             true) w = w5 /\
  trace_of (rebuild_daily env config_path db_binding date_ from_date to_date true)
           w =
    [Call_print stdout dry_run_notice;
     Call_read_config config_path;
     Call_print stdout (config_msg (env_BOLD env) (env_ENDC env) p);
     Call_get_manager_dict_from_config cfg db_binding;
     Call_parse_dates date_ from_date to_date;
     Call_log_info (range_msg from_d to_d);
     Call_print stdout (range_msg from_d to_d);
     Call_y_or_n (rebuild_prompt name);
     Call_time;
     Call_log_info (rebuilding_msg name);
     Call_print stdout (rebuilding_msg name);
     Call_print stdout dry_run_done].
Proof.
  pose proof (proj2 (String.eqb_neq _ _) Hne) as Hne'.
  unfold_action. answer. repeat split.
Qed.

Variables (w6 : W) (dbmanager : Manager).

Hypothesis Hopen :
  env_open_manager_with_config env cfg db_binding true w5 = (Ok dbmanager, w6).

(** [rebuild_daily] catches nothing.  An error of
    [backfill_day_summary], operational or not, leaves the function
    after the manager has been closed; the clock is not read again, no
    completion is logged and no result is printed. *)
Theorem rebuild_daily_backfill_error_passes (e : exn) (w7 : W) :
  env_backfill_day_summary env dbmanager from_d to_d 20 w6 = (Raise e, w7) ->
  let tr := trace_of (rebuild_daily env config_path db_binding date_ from_date
                                    to_date false) w in
  outcome (rebuild_daily env config_path db_binding date_ from_date to_date false)
          w = Raise e /\
  world_after (rebuild_daily env config_path db_binding date_ from_date to_date
                             false) w = env_exit env dbmanager w7 /\
  last tr Call_time = Call_exit dbmanager /\
  count is_time tr = 1 /\
  logged tr = [range_msg from_d to_d; rebuilding_msg name] /\
  printed stdout tr =
    [config_msg (env_BOLD env) (env_ENDC env) p; range_msg from_d to_d;
     rebuilding_msg name].
Proof.
  pose proof (proj2 (String.eqb_neq _ _) Hne) as Hne'.
  intros Hfill. unfold_action. unfold count. answer. repeat split.
Qed.

(** After a backfill that returns, the manager is closed before the clock
    is read again, the completion is always logged, and the last line
    printed is the completion line when records were processed and the
    "up to date" line when none were: in that case the completion is in
    the log only. *)
Theorem rebuild_daily_completion (nrecs ndays : Z) (w7 w8 : W) (t2 : Float) :
  env_backfill_day_summary env dbmanager from_d to_d 20 w6 =
    (Ok (nrecs, ndays), w7) ->
  env_time env (env_exit env dbmanager w7) = (t2, w8) ->
  let tr := trace_of (rebuild_daily env config_path db_binding date_ from_date
                                    to_date false) w in
  outcome (rebuild_daily env config_path db_binding date_ from_date to_date false)
          w = Ok tt /\
  world_after (rebuild_daily env config_path db_binding date_ from_date to_date
                             false) w = w8 /\
  logged tr =
    [range_msg from_d to_d; rebuilding_msg name; rebuild_complete_msg name] /\
  filter (fun c => is_exit c || is_time c) tr =
    [Call_time; Call_exit dbmanager; Call_time] /\
  last (printed stdout tr) "" =
    (if (nrecs =? 0)%Z then up_to_date_msg name else rebuild_complete_msg name) /\
  (nrecs = 0%Z -> ~ In (rebuild_complete_msg name) (printed stdout tr)).
Proof.
  pose proof (proj2 (String.eqb_neq _ _) Hne) as Hne'.
  intros Hfill Ht2. unfold_action. answer.
  destruct (nrecs =? 0)%Z eqn:En; cbn.
  - repeat split. intros _ [H | [H | [H | [H | []]]]]; revert H.
    + unfold config_msg, rebuild_complete_msg. cbn. discriminate.
    + apply range_msg_is_not_completion.
    + unfold rebuilding_msg, rebuild_complete_msg. cbn. discriminate.
    + unfold up_to_date_msg, rebuild_complete_msg. cbn. discriminate.
  - destruct (nrecs >=? 1000)%Z; cbn; repeat split;
      intros ->; discriminate En.
Qed.

End RebuildDailyPaths.

Lemma rebuild_daily_only_n_declines_witness :
  env_y_or_n Mock.env (rebuild_prompt "weewx.sdb") Mock.mumbling =
    (Ok "maybe", Mock.mumbling) /\
  "maybe" <> "n" /\
  filter is_open
    (trace_of (rebuild_daily Mock.env "weewx.conf" "wx_binding" None None None false)
              Mock.mumbling) =
    [Call_open_manager_with_config Mock.cfg "wx_binding" true].
Proof.
  split; [reflexivity | split; [discriminate |]].
  apply (rebuild_daily_only_n_declines Mock.env
           Mock.mumbling Mock.mumbling Mock.mumbling Mock.mumbling Mock.mumbling
           (Mock.advance Mock.mumbling)
           "weewx.conf" "wx_binding" "/etc/weewx/weewx.conf" None None None
           Mock.cfg Mock.mgr_dict None None "maybe" 100000%Z
           eq_refl eq_refl eq_refl eq_refl ltac:(discriminate) eq_refl).
Defined.

Lemma rebuild_daily_dry_run_stops_before_open_witness :
  env_y_or_n Mock.env (rebuild_prompt "weewx.sdb") Mock.healthy =
    (Ok "y", Mock.healthy) /\
  "y" <> "n" /\
  outcome (rebuild_daily Mock.env "weewx.conf" "wx_binding" None None None true)
          Mock.healthy = Ok tt.
Proof.
  split; [reflexivity | split; [discriminate |]].
  apply (rebuild_daily_dry_run_stops_before_open Mock.env
           Mock.healthy Mock.healthy Mock.healthy Mock.healthy Mock.healthy
           (Mock.advance Mock.healthy)
           "weewx.conf" "wx_binding" "/etc/weewx/weewx.conf" None None None
           Mock.cfg Mock.mgr_dict None None "y" 100000%Z
           eq_refl eq_refl eq_refl eq_refl ltac:(discriminate) eq_refl).
Defined.

Lemma rebuild_daily_backfill_error_passes_witness :
  env_backfill_day_summary Mock.env Mock.mgr None None 20
    (Mock.advance Mock.disk_full) =
    (Raise (OperationalError "database or disk is full"),
     Mock.advance Mock.disk_full) /\
  outcome (rebuild_daily Mock.env "weewx.conf" "wx_binding" None None None false)
          Mock.disk_full =
    Raise (OperationalError "database or disk is full").
Proof.
  split; [reflexivity |].
  apply (rebuild_daily_backfill_error_passes Mock.env
           Mock.disk_full Mock.disk_full Mock.disk_full Mock.disk_full
           Mock.disk_full (Mock.advance Mock.disk_full)
           "weewx.conf" "wx_binding" "/etc/weewx/weewx.conf" None None None
           Mock.cfg Mock.mgr_dict None None "y" 100000%Z
           eq_refl eq_refl eq_refl eq_refl ltac:(discriminate) eq_refl
           (Mock.advance Mock.disk_full) Mock.mgr eq_refl
           (OperationalError "database or disk is full")
           (Mock.advance Mock.disk_full) eq_refl).
Defined.

Lemma rebuild_daily_completion_witness :
  env_backfill_day_summary Mock.env Mock.mgr None None 20
    (Mock.advance Mock.healthy) = (Ok (5, 2)%Z, Mock.advance Mock.healthy) /\
  logged (trace_of (rebuild_daily Mock.env "weewx.conf" "wx_binding"
                                  None None None false) Mock.healthy) =
    ["All daily summaries will be rebuilt.";
     rebuilding_msg "weewx.sdb"; rebuild_complete_msg "weewx.sdb"].
Proof.
  split; [reflexivity |].
  apply (rebuild_daily_completion Mock.env
           Mock.healthy Mock.healthy Mock.healthy Mock.healthy Mock.healthy
           (Mock.advance Mock.healthy)
           "weewx.conf" "wx_binding" "/etc/weewx/weewx.conf" None None None
           Mock.cfg Mock.mgr_dict None None "y" 100000%Z
           eq_refl eq_refl eq_refl eq_refl ltac:(discriminate) eq_refl
           (Mock.advance Mock.healthy) Mock.mgr eq_refl
           5%Z 2%Z (Mock.advance Mock.healthy)
           (Mock.advance (Mock.advance Mock.healthy)) 100123%Z
           eq_refl eq_refl).
Defined.

(** ** What create_database leaves behind *)

Section Postcondition.

Context {Config Float W : Type} (env : Env Config Float W).

Variables (config_path db_binding p : string) (cfg : Config) (dbname : string).
Variables (present : W -> bool) (sound : W -> Prop).

Hypothesis contract :
  collaborators_complete env config_path db_binding p cfg dbname present sound.

(** Whenever the collaborators complete their work, a run of
    [create_database] that is not a dry run returns normally and leaves
    the database existing, whether it existed before or not; a dry run
    returns normally, makes no creation call and leaves the existence of
    the database as it found it. *)
Theorem create_database_postcondition (w : W) :
  sound w ->
  (outcome (create_database env config_path db_binding false) w = Ok tt /\
   present (world_after (create_database env config_path db_binding false) w)
     = true) /\
  (outcome (create_database env config_path db_binding true) w = Ok tt /\
   present (world_after (create_database env config_path db_binding true) w)
     = present w /\
   count is_create (trace_of (create_database env config_path db_binding true) w)
     = 0).
Proof.
  intros Hs. unfold outcome, world_after, trace_of.
  destruct (present w) eqn:Hp; split.
  - destruct (create_database_run_found env _ _ _ _ _ _ _ contract w false Hs Hp)
      as (w' & tr & Hrun & _ & Hp' & _).
    rewrite Hrun. split; [reflexivity | exact Hp'].
  - destruct (create_database_run_found env _ _ _ _ _ _ _ contract w true Hs Hp)
      as (w' & tr & Hrun & _ & Hp' & Hcount & _).
    rewrite Hrun. repeat split; assumption.
  - destruct (create_database_run_created env _ _ _ _ _ _ _ contract w Hs Hp)
      as (w' & tr & Hrun & _ & Hp' & _).
    rewrite Hrun. split; [reflexivity | exact Hp'].
  - destruct (create_database_run_dry_missing env _ _ _ _ _ _ _ contract w Hs Hp)
      as (w' & tr & Hrun & _ & Hp' & _ & Hcount & _).
    rewrite Hrun. repeat split; assumption.
Qed.

End Postcondition.

Lemma create_database_postcondition_witness :
  DbModel.sound "weewx.conf" "wx_binding" DbModel.station_cfg "weewx.sdb"
                DbModel.fresh /\
  DbModel.db_exists "weewx.sdb" DbModel.fresh = false /\
  DbModel.db_exists "weewx.sdb"
    (world_after (create_database DbModel.env "weewx.conf" "wx_binding" false)
                 DbModel.fresh) = true /\
  DbModel.db_exists "weewx.sdb"
    (world_after (create_database DbModel.env "weewx.conf" "wx_binding" true)
                 DbModel.fresh) = false.
Proof.
  split; [exact fresh_is_sound | split; [reflexivity |]].
  pose proof (create_database_postcondition DbModel.env
                "weewx.conf" "wx_binding" "weewx.conf"
                DbModel.station_cfg "weewx.sdb"
                (DbModel.db_exists "weewx.sdb")
                (DbModel.sound "weewx.conf" "wx_binding" DbModel.station_cfg
                               "weewx.sdb")
                (db_model_keeps_contract "weewx.conf" "wx_binding"
                                         DbModel.station_cfg "weewx.sdb")
                DbModel.fresh fresh_is_sound) as [[_ Hreal] [_ [Hdry _]]].
  split; [exact Hreal | exact Hdry].
Defined.

Lemma nothing_opened_before_prompt_witness :
  count is_prompt
    (trace_of (rebuild_daily Mock.env "weewx.conf" "wx_binding" None None None false)
              Mock.unbound) = 0 /\
  count is_open
    (trace_of (rebuild_daily Mock.env "weewx.conf" "wx_binding" None None None false)
              Mock.unbound) = 0.
Proof.
  split; [reflexivity |].
  apply (proj2 (proj2 (proj2 (nothing_opened_before_prompt Mock.env
                                Mock.unbound "weewx.conf" "wx_binding"
                                None None None false)))
               eq_refl).
Defined.
